(** * Authentication gate and ownership policy of the order API

    A shallow embedding of [endpoints/auth.js] (the [authenticateToken]
    middleware) and of the single-order routes of [endpoints/orders.js]
    ([GET /order/:orderID], [POST /order], [PUT /order],
    [DELETE /order/:orderID]), followed by the properties the
    specification states about them.  The two listing routes
    ([GET /orders/user/:userID], [GET /orders/all]) and the properties
    that the code shows beyond the specification come after.

    The handlers are asynchronous JavaScript over two Mongoose
    collections.  They are embedded as computations in a small monad that
    threads the two collections, records every call that leaves the
    process (token verifier, collections) in a chronological log, and
    carries JavaScript exceptions, so that [try]/[catch] and "was never
    consulted" can both be stated.

    Two things are left to the reader of a statement.  Whether a string
    is an identifier of the store (an ObjectId that the schema casts)
    depends on the schema and the driver, which are not among the
    sources; it is the parameter [casts] of the order model.  And request
    bodies are JSON objects whose properties are strings: [null], nested
    values and the update operators of the store in a body are outside
    the model. *)

From Stdlib Require Import Ascii String ZArith.
From stdpp Require Import base option list strings gmap numbers.

Local Open Scope string_scope.
Local Open Scope Z_scope.

(** ** Data model *)

(** Modelled from the spec: [models/user.js] is not among the sources.
    The spec gives an identity record an id, a role, a credential hash and
    profile fields; the middleware reads [_id] and [role] only.

    A record of the [users] collection.  [User_role] is [None] when the
    stored document has no [role] property. *)
Record User := mkUser {
  User_id : string;
  User_role : option string;
  User_email : string;
  User_password : string
}.

(** Modelled from the spec: [models/order.js] is not among the sources.
    The spec gives an order an owner reference plus business fields.  The
    handlers name the owner path [user]; the API tests name the business
    paths [type] (created as Box1 when absent, Box3 refused) and
    [description].  Identifiers are strings that cast to the schema's id
    type.

    A document of the [orders] collection.  [Order_user] is the owner
    reference; it is optional because [new Order({...req.body})] builds a
    document before [newOrder.user] is assigned. *)
Record Order := mkOrder {
  Order_id : string;
  Order_user : option string;
  Order_type : string;
  Order_description : option string
}.

(** The decoded token payload, the object [user] of the [jwt.verify]
    callback; after [user.role = userFound.role] it is what the handlers
    see as [req.user]. *)
Record JwtUser := mkJwtUser {
  jwt_id : string;
  jwt_role : option string
}.

(** The parts of an Express request that the middleware and the handlers
    read: [req.headers['authorization']], [req.params.orderID] and
    [req.body].  The body is a JSON object whose properties are strings;
    a body with [null], with nested objects or arrays, or with update
    operators of the store (a key that starts with a dollar sign) is not
    represented, and what is proved about an update is proved for the
    bodies that are. *)
Record Request := mkRequest {
  headers_authorization : option string;
  params_orderID : string;
  body : gmap string string
}.

(** What [res.json], [res.send] and [res.sendStatus] put on the wire. *)
Inductive Payload :=
| StatusText
| Message (message : string)
| Doc (document : option Order).

Record Response := mkResponse {
  status : Z;
  payload : Payload
}.

(** Calls to the verifier and to the two models, in the order they are
    made. *)
Inductive Event :=
| JwtVerify (token : string)
| UserFindOne (id : string)
| UserExists (id : string)
| OrderFindOne (id : option string)
| OrderFind (user : string)
| OrderSave (o : Order)
| OrderFindByIdAndUpdate (id : option string)
| OrderFindByIdAndDelete (id : string).

(** JavaScript exceptions that the embedded code can raise. *)
Inductive Exn :=
| TypeError
| AssertionError
| ValidationError
| CastError
| MongoServerError.

Record World := mkWorld {
  Users : gmap string User;
  Orders : gmap string Order;
  log : list Event
}.

Definition emit (e : Event) (w : World) : World :=
  mkWorld (Users w) (Orders w) (log w ++ [e]).

Definition set_Orders (os : gmap string Order) (w : World) : World :=
  mkWorld (Users w) os (log w).

(** ** The monad of handlers *)

Inductive Res (A : Type) :=
| Ok (a : A)
| Throw (e : Exn).
Arguments Ok {A} a.
Arguments Throw {A} e.

Definition M (A : Type) : Type := World -> Res A * World.

Definition ret {A} (a : A) : M A := fun w => (Ok a, w).

Definition bind {A B} (m : M A) (k : A -> M B) : M B :=
  fun w =>
    match m w with
    | (Ok a, w') => k a w'
    | (Throw e, w') => (Throw e, w')
    end.

Definition throw {A} (e : Exn) : M A := fun w => (Throw e, w).

(** [try { m } catch (error) { h error }]: what [m] did to the
    collections before it threw stays done. *)
Definition try_catch {A} (m : M A) (h : Exn -> M A) : M A :=
  fun w =>
    match m w with
    | (Ok a, w') => (Ok a, w')
    | (Throw e, w') => h e w'
    end.

Notation "x <- m ;; k" := (bind m (fun x => k))
  (at level 100, m at next level, right associativity).

(** ** JavaScript expressions used by the source *)

(** [s.split(sep)] for a one-character separator. *)
Fixpoint split (sep : Ascii.ascii) (s : string) : list string :=
  match s with
  | EmptyString => [EmptyString]
  | String c s' =>
      if Ascii.eqb c sep then EmptyString :: split sep s'
      else match split sep s' with
           | [] => [String c EmptyString]
           | w :: ws => String c w :: ws
           end
  end.

(** Truthiness of a possibly undefined string. *)
Definition truthy (v : option string) : bool :=
  match v with
  | None => false
  | Some s => negb (String.eqb s "")
  end.

(** [a && b] on booleans, [b] evaluated only when [a] holds. *)
Definition and_then (a : bool) (b : M bool) : M bool :=
  if a then b else ret false.

(** [orderFound.user]: a property read on [null] throws. *)
Definition dot_user (orderFound : option Order) : M (option string) :=
  match orderFound with
  | None => throw TypeError
  | Some o => ret (Order_user o)
  end.

(** [v.toString()]: a method call on [undefined] throws. *)
Definition toString (v : option string) : M string :=
  match v with
  | None => throw TypeError
  | Some s => ret s
  end.

(** [assert(value, message)] *)
Definition assert (value : bool) : M unit :=
  if value then ret tt else throw AssertionError.

(** [req.user.role !== "Admin"] *)
Definition role_is_not (u : JwtUser) (r : string) : bool :=
  negb (bool_decide (jwt_role u = Some r)).

(** [res.sendStatus(code)] sends the status with its reason phrase as
    the body. *)
Definition sendStatus (code : Z) : Response := mkResponse code StatusText.

(** [res.status(code).json(value)] and [res.status(code).send(value)]. *)
Definition json (code : Z) (value : Payload) : Response := mkResponse code value.

(** ** The identity store, as far as the gate and the handlers call it *)

(** [User.findOne({_id: id})] *)
Definition User_findOne (id : string) : M (option User) :=
  fun w => (Ok (Users w !! id), emit (UserFindOne id) w).

(** [User.exists({_id: id})] *)
Definition User_exists (id : string) : M bool :=
  fun w => (Ok (bool_decide (is_Some (Users w !! id))), emit (UserExists id) w).

(** ** endpoints/auth.js *)

(** How the middleware leaves: it has answered, or it has set [req.user]
    and called [next()]. *)
Inductive GateOutcome :=
| Responded (res : Response)
| Next (req_user : JwtUser).

(** [const token = authHeader && authHeader.split(' ')[1]]: [undefined]
    for an absent header, the header itself when it is the empty string
    (the falsy left operand is the value of [&&]), and otherwise the second
    of the pieces between spaces, [undefined] when there is none. *)
Definition token (authHeader : option string) : option string :=
  match authHeader with
  | None => None
  | Some h => if truthy (Some h) then split " "%char h !! 1%nat else Some h
  end.

Section Gate.

(** [jwt.verify(token, process.env.API_SECRET, callback)]: the external
    verifier with the secret of the process; [None] stands for a call
    of the callback with an error. *)
Variable verify : string -> option JwtUser.

Definition jwt_verify (token : string) : M (option JwtUser) :=
  fun w => (Ok (verify token), emit (JwtVerify token) w).

Definition authenticateToken (req : Request) : M GateOutcome :=
  let authHeader := headers_authorization req in
  match token authHeader with
  | None => ret (Responded (sendStatus 401))
  | Some token =>
      verified <- jwt_verify token ;;
      match verified with
      | None => ret (Responded (json 403 (Message "Unauthorized access.")))
      | Some user =>
          userFound <- User_findOne (jwt_id user) ;;
          match userFound with
          | None => ret (Responded (json 403 (Message "Unauthorized access.")))
          | Some userFound =>
              _ <- assert (truthy (User_role userFound)) ;;
              let user := mkJwtUser (jwt_id user) (User_role userFound) in
              ret (Next user)
          end
      end
  end.

(** [app.METHOD(path, authenticateToken, handler)] *)
Definition route (handler : JwtUser -> Request -> M Response) (req : Request)
  : M Response :=
  out <- authenticateToken req ;;
  match out with
  | Responded res => ret res
  | Next req_user => handler req_user req
  end.

End Gate.

(** ** The rule of the specification *)

Inductive AccessDecision := ALLOW | DENY.

(** The authorization policy in the words of the specification: ALLOW if
    the principal's role is Admin or the principal's id is the resource
    owner's id, DENY otherwise. *)
Definition authorize (principal : JwtUser) (resourceOwnerId : string)
  : AccessDecision :=
  if bool_decide (jwt_role principal = Some "Admin"
                  ∨ jwt_id principal = resourceOwnerId)
  then ALLOW else DENY.

(** ** Order documents *)

(** Modelled from the spec: the defaults are those of [models/order.js],
    which is not among the sources; the API tests show Box1 as the type of
    an order created without one.

    [new Order({...fields})]: the schema paths are taken from the object,
    [oid] is the identifier generated when the object brings none. *)
Definition new_Order (oid : string) (fields : gmap string string) : Order :=
  mkOrder (default oid (fields !! "_id"))
          (fields !! "user")
          (default "Box1" (fields !! "type"))
          (fields !! "description").

(** [newOrder.user = id] *)
Definition set_user (id : string) (o : Order) : Order :=
  mkOrder (Order_id o) (Some id) (Order_type o) (Order_description o).

(** Modelled from the spec: the paths are those of [models/order.js],
    which is not among the sources; [user] is taken as a path like the
    others, since the handlers assign it, query by it and read it back.

    The document after [$set] of the schema paths that [fields] has; the
    [_id] of [fields] is the filter itself in the only caller. *)
Definition apply_update (fields : gmap string string) (o : Order) : Order :=
  mkOrder (Order_id o)
          (match fields !! "user" with Some v => Some v | None => Order_user o end)
          (default (Order_type o) (fields !! "type"))
          (match fields !! "description" with Some v => Some v | None => Order_description o end).

(** What the two listing routes put on the wire: a message, or the array
    of the documents found.  The array is kept as the finite map of its
    documents by identifier; its order is the natural order of the
    collection, which [Orders] does not keep. *)
Inductive ListPayload :=
| ListMessage (message : string)
| Docs (documents : gmap string Order).

Record ListResponse := mkListResponse {
  list_status : Z;
  list_payload : ListPayload
}.

(** A request to one of the four single-order routes that
    [module.exports] registers on the application; [oid] is the identifier
    generated for the document of a creation. *)
Inductive Call :=
| GetOrder (req : Request)
| PostOrder (oid : string) (req : Request)
| PutOrder (req : Request)
| DeleteOrder (req : Request).

(** The shape of the order store that the routes rely on: a document is
    stored under its own identifier and has an owner. *)
Definition store_ok (w : World) : Prop :=
  map_Forall (fun id o => Order_id o = id ∧ is_Some (Order_user o)) (Orders w).

(** No space occurs in the string. *)
Fixpoint spaceless (s : string) : bool :=
  match s with
  | EmptyString => true
  | String c s' => negb (Ascii.eqb c " ") && spaceless s'
  end.

(** ** A small deployment, for closed examples *)

Module Demo.

Definition u1 : string := "64b000000000000000000001".
Definition u2 : string := "64b000000000000000000002".
Definition admin1 : string := "64b0000000000000000000aa".
Definition ghost : string := "64b0000000000000000000ff".
Definition norole : string := "64b0000000000000000000ee".
Definition r1 : string := "75c000000000000000000001".
Definition r2 : string := "75c000000000000000000002".
Definition r9 : string := "000000000000000000000000".

(** A verifier that accepts four tokens and rejects everything else,
    the empty string included. *)
Definition verify (t : string) : option JwtUser :=
  if String.eqb t "tok-u1" then Some (mkJwtUser u1 None)
  else if String.eqb t "tok-admin1" then Some (mkJwtUser admin1 None)
  else if String.eqb t "tok-ghost" then Some (mkJwtUser ghost None)
  else if String.eqb t "tok-norole" then Some (mkJwtUser norole None)
  else None.

Definition users : gmap string User :=
  <[u1 := mkUser u1 (Some "User") "u1@test.com" "$2b$08$h1"]>
  (<[u2 := mkUser u2 (Some "User") "u2@test.com" "$2b$08$h2"]>
  (<[admin1 := mkUser admin1 (Some "Admin") "test@test.com" "$2b$08$h3"]>
  (<[norole := mkUser norole None "norole@test.com" "$2b$08$h4"]> ∅))).

Definition orders : gmap string Order :=
  <[r1 := mkOrder r1 (Some u2) "Box1" None]>
  (<[r2 := mkOrder r2 (Some u1) "Box2" (Some "mine")]> ∅).

Definition world : World := mkWorld users orders [].

(** An order store in which r1 has lost its owner. *)
Definition ownerless : World :=
  mkWorld users {[r1 := mkOrder r1 None "Box1" None]} [].

(** An instance of the cast: the strings of twenty-four lower-case
    hexadecimal digits are identifiers. *)
Definition hex (c : Ascii.ascii) : bool :=
  existsb (Ascii.eqb c) (list_ascii_of_string "0123456789abcdef").

Definition casts (s : string) : bool :=
  forallb hex (list_ascii_of_string s) && Nat.eqb (String.length s) 24.

Definition fresh : World := mkWorld users ∅ [].

Definition bearer (t : string) (orderID : string) (fields : gmap string string)
  : Request :=
  mkRequest (Some ("Bearer " ++ t)) orderID fields.

End Demo.

(** ** The order model, as far as the handlers call it *)

Section Orders.

(** Modelled from the spec: the schema ([models/order.js]) and the driver
    are not among the sources.  [casts s] says whether the string [s] is
    an identifier of the store: Mongoose casts the value of [_id] and of
    [user] to the identifier type of the schema before a query or an
    update is sent, and rejects the call when the value does not cast.
    Identifiers are compared as written. *)
Variable casts : string -> bool.

(** [Order.findOne({_id: id})]: rejects when [id] does not cast; [id] is
    [None] when the caller passed [undefined], which no stored document
    matches. *)
Definition Order_findOne (id : option string) : M (option Order) :=
  fun w =>
    (match id with
     | Some i => if casts i then Ok (Orders w !! i) else Throw CastError
     | None => Ok None
     end,
     emit (OrderFindOne id) w).

(** [Order.find({user: id})]: the stored documents whose [user] is [id];
    rejects when [id] does not cast. *)
Definition Order_find (id : string) : M (gmap string Order) :=
  fun w =>
    (if casts id
     then Ok (filter (fun kv => Order_user kv.2 = Some id) (Orders w))
     else Throw CastError,
     emit (OrderFind id) w).

(** Modelled from the spec: the validators are those of
    [models/order.js], which is not among the sources; the API tests show
    that Box1 and Box2 are accepted as type and Box3 is refused.

    Schema validation, run by [save]: the [_id] given to the constructor
    has to cast, and the type has to be one of the schema. *)
Definition validate (o : Order) : bool :=
  casts (Order_id o)
  && (bool_decide (Order_type o = "Box1") || bool_decide (Order_type o = "Box2")).

(** [newOrder.save()]: validates, then inserts; an identifier already in
    the collection is a duplicate-key error of the server. *)
Definition Order_save (o : Order) : M Order :=
  fun w =>
    let w := emit (OrderSave o) w in
    if validate o then
      match Orders w !! Order_id o with
      | Some _ => (Throw MongoServerError, w)
      | None => (Ok o, set_Orders (<[Order_id o := o]> (Orders w)) w)
      end
    else (Throw ValidationError, w).

(** Whether the values of an update cast: [user] is the one path whose
    type is the identifier type; the strings of the other paths are
    strings of the schema. *)
Definition update_casts (fields : gmap string string) : bool :=
  match fields !! "user" with
  | Some v => casts v
  | None => true
  end.

(** [Order.findByIdAndUpdate(id, fields, {"new": true})]: rejects when
    [id] or a value of [fields] does not cast; otherwise resolves to the
    updated document, or to [null] when there is none. *)
Definition Order_findByIdAndUpdate (id : option string) (fields : gmap string string)
  : M (option Order) :=
  fun w =>
    let w := emit (OrderFindByIdAndUpdate id) w in
    match id with
    | Some i =>
        if casts i && update_casts fields then
          match Orders w !! i with
          | Some o =>
              let o' := apply_update fields o in
              (Ok (Some o'), set_Orders (<[i := o']> (Orders w)) w)
          | None => (Ok None, w)
          end
        else (Throw CastError, w)
    | None => (Ok None, w)
    end.

(** [Order.findByIdAndDelete(id)]: rejects when [id] does not cast;
    otherwise resolves to the removed document, or to [null] when there is
    none. *)
Definition Order_findByIdAndDelete (id : string) : M (option Order) :=
  fun w =>
    let w := emit (OrderFindByIdAndDelete id) w in
    if casts id
    then (Ok (Orders w !! id), set_Orders (delete id (Orders w)) w)
    else (Throw CastError, w).

(** ** endpoints/orders.js *)

(** [app.get("/order/:orderID", ...)]: the [try] block, then the handler. *)
Definition get_order_try (req_user : JwtUser) (req : Request) : M Response :=
  let orderID := params_orderID req in
  orderFound <- Order_findOne (Some orderID) ;;
  match orderFound with
  | Some _ =>
      denied <- and_then (role_is_not req_user "Admin")
                  (owner <- dot_user orderFound ;;
                   s <- toString owner ;;
                   ret (negb (String.eqb s (jwt_id req_user)))) ;;
      if denied then ret (json 403 (Message "Unauthorized Access."))
      else ret (json 200 (Doc orderFound))
  | None => ret (json 404 (Message "No order found."))
  end.

Definition get_order (req_user : JwtUser) (req : Request) : M Response :=
  try_catch (get_order_try req_user req)
            (fun error => ret (json 400 (Message "Bad Request."))).

(** [app.post("/order", ...)]; [oid] is the identifier that Mongoose
    generates for the new document. *)
Definition post_order_try (oid : string) (req_user : JwtUser) (req : Request)
  : M Response :=
  let newOrder := new_Order oid (body req) in
  let newOrder := set_user (jwt_id req_user) newOrder in
  userExists <- User_exists (jwt_id req_user) ;;
  if userExists then
    insertedOrder <- Order_save newOrder ;;
    ret (json 201 (Doc (Some insertedOrder)))
  else ret (json 400 (Message "No user associated with order.")).

Definition post_order (oid : string) (req_user : JwtUser) (req : Request) : M Response :=
  try_catch (post_order_try oid req_user req)
            (fun error => ret (json 400 (Message "Bad Request."))).

(** [app.put("/order", ...)] *)
Definition put_order_try (req_user : JwtUser) (req : Request) : M Response :=
  let id := body req !! "_id" in
  orderFound <- Order_findOne id ;;
  denied <- and_then (role_is_not req_user "Admin")
              (owner <- dot_user orderFound ;;
               s <- toString owner ;;
               ret (negb (String.eqb s (jwt_id req_user)))) ;;
  if denied then ret (json 403 (Message "Unauthorized Access."))
  else
    match orderFound with
    | Some _ =>
        updatedOrder <- Order_findByIdAndUpdate id (body req) ;;
        ret (json 201 (Doc updatedOrder))
    | None => ret (json 404 (Message "No order found."))
    end.

Definition put_order (req_user : JwtUser) (req : Request) : M Response :=
  try_catch (put_order_try req_user req)
            (fun error => ret (json 400 (Message "Bad Request."))).

(** [app.delete("/order/:orderID", ...)] *)
Definition delete_order_try (req_user : JwtUser) (req : Request) : M Response :=
  let orderID := params_orderID req in
  orderFound <- Order_findOne (Some orderID) ;;
  denied <- and_then (role_is_not req_user "Admin")
              (owner <- dot_user orderFound ;;
               s <- toString owner ;;
               ret (negb (String.eqb s (jwt_id req_user)))) ;;
  if denied then ret (json 403 (Message "Unauthorized Access."))
  else
    orderDeleted <- Order_findByIdAndDelete orderID ;;
    ret (json 200 (Doc orderDeleted)).

Definition delete_order (req_user : JwtUser) (req : Request) : M Response :=
  try_catch (delete_order_try req_user req)
            (fun error => ret (json 400 (Message "Bad Request."))).

(** ** The listing routes of endpoints/orders.js *)

(** [app.get("/orders/user/:userID", ...)]; [userID] is
    [req.params.userID]. *)
Definition get_orders_user_try (req_user : JwtUser) (userID : string)
  : M ListResponse :=
  if role_is_not req_user "Admin" then
    ret (mkListResponse 403 (ListMessage "Unauthorized Access."))
  else
    allOrders <- Order_find userID ;;
    ret (mkListResponse 200 (Docs allOrders)).

Definition get_orders_user (req_user : JwtUser) (userID : string)
  : M ListResponse :=
  try_catch (get_orders_user_try req_user userID)
            (fun error => ret (mkListResponse 400 (ListMessage "Bad Request."))).

(** [app.get("/orders/all", ...)] *)
Definition get_orders_all_try (req_user : JwtUser) : M ListResponse :=
  allOrders <- Order_find (jwt_id req_user) ;;
  ret (mkListResponse 200 (Docs allOrders)).

Definition get_orders_all (req_user : JwtUser) : M ListResponse :=
  try_catch (get_orders_all_try req_user)
            (fun error => ret (mkListResponse 400 (ListMessage "Bad Request."))).

(** ** Requests in sequence *)

Section Server.

Variable verify : string -> option JwtUser.

Definition serve (c : Call) : M Response :=
  match c with
  | GetOrder req => route verify get_order req
  | PostOrder oid req => route verify (post_order oid) req
  | PutOrder req => route verify put_order req
  | DeleteOrder req => route verify delete_order req
  end.

(** The world after the requests were served one after the other. *)
Fixpoint serve_all (cs : list Call) (w : World) : World :=
  match cs with
  | [] => w
  | c :: cs => serve_all cs (serve c w).2
  end.

End Server.

(** ** Bookkeeping *)

(** The projections of a world commute with the bookkeeping. *)
Lemma Users_emit e w : Users (emit e w) = Users w.
Proof. reflexivity. Qed.

Lemma Orders_emit e w : Orders (emit e w) = Orders w.
Proof. reflexivity. Qed.

Lemma log_emit e w : log (emit e w) = (log w ++ [e])%list.
Proof. reflexivity. Qed.

Lemma Users_set_Orders os w : Users (set_Orders os w) = Users w.
Proof. reflexivity. Qed.

Lemma Orders_set_Orders os w : Orders (set_Orders os w) = os.
Proof. reflexivity. Qed.

Lemma log_set_Orders os w : log (set_Orders os w) = log w.
Proof. reflexivity. Qed.

Create Rewrite HintDb world.
#[local] Hint Rewrite Users_emit Orders_emit log_emit
  Users_set_Orders Orders_set_Orders log_set_Orders : world.

Ltac world := cbn; autorewrite with world.

Ltac run_gate :=
  unfold route, authenticateToken, jwt_verify, User_findOne, assert,
    bind, ret, throw; world.

Section GateProperties.

Variable verify : string -> option JwtUser.
Variable handler : JwtUser -> Request -> M Response.

(** A request without credential is answered before anything else
    happens: the world, log included, is the one it started from. *)
Lemma gate_no_token req w :
  token (headers_authorization req) = None ->
  authenticateToken verify req w = (Ok (Responded (sendStatus 401)), w).
Proof. intros H. run_gate. by rewrite H. Qed.

(** A rejected credential costs one call of the verifier and nothing
    else. *)
Lemma gate_rejected req w tok :
  token (headers_authorization req) = Some tok ->
  verify tok = None ->
  authenticateToken verify req w
  = (Ok (Responded (json 403 (Message "Unauthorized access."))),
     emit (JwtVerify tok) w).
Proof. intros H Hv. run_gate. by rewrite H, Hv. Qed.

Lemma gate_unknown req w tok user :
  token (headers_authorization req) = Some tok ->
  verify tok = Some user ->
  Users w !! jwt_id user = None ->
  authenticateToken verify req w
  = (Ok (Responded (json 403 (Message "Unauthorized access."))),
     emit (UserFindOne (jwt_id user)) (emit (JwtVerify tok) w)).
Proof. intros H Hv Hu. run_gate. rewrite H, Hv. world. by rewrite Hu. Qed.

Lemma gate_found req w tok user userFound :
  token (headers_authorization req) = Some tok ->
  verify tok = Some user ->
  Users w !! jwt_id user = Some userFound ->
  authenticateToken verify req w
  = (if truthy (User_role userFound)
     then Ok (Next (mkJwtUser (jwt_id user) (User_role userFound)))
     else Throw AssertionError,
     emit (UserFindOne (jwt_id user)) (emit (JwtVerify tok) w)).
Proof.
  intros H Hv Hu. run_gate. rewrite H, Hv. world. rewrite Hu.
  by destruct (truthy (User_role userFound)).
Qed.

(** The route answers what the gate answered, and runs the handler only
    on [next()]. *)
Lemma route_responded req w res w' :
  authenticateToken verify req w = (Ok (Responded res), w') ->
  route verify handler req w = (Ok res, w').
Proof. intros H. unfold route, bind, ret. by rewrite H. Qed.

Lemma route_thrown req w e w' :
  authenticateToken verify req w = (Throw e, w') ->
  route verify handler req w = (Throw e, w').
Proof. intros H. unfold route, bind. by rewrite H. Qed.

Lemma route_next req w u w' :
  authenticateToken verify req w = (Ok (Next u), w') ->
  route verify handler req w = handler u req w'.
Proof. intros H. unfold route, bind. by rewrite H. Qed.

(** An empty header is not an absent one: the empty string goes to the
    verifier as the credential, whatever the verifier is, and the answer
    is never 401. *)
Lemma empty_header_never_401 req w :
  headers_authorization req = Some "" ->
  ∃ out l, (authenticateToken verify req w).1 = out
           ∧ log (authenticateToken verify req w).2 = (log w ++ JwtVerify "" :: l)%list
           ∧ ∀ res, out = Ok (Responded res) -> status res = 403.
Proof.
  intros H. run_gate. rewrite H. cbn.
  destruct (verify "") as [user|]; world.
  - destruct (Users w !! jwt_id user) as [uf|]; cbn.
    + destruct (truthy (User_role uf)); cbn;
        eexists _, [UserFindOne (jwt_id user)];
        (split; [reflexivity|split; [by rewrite <- app_assoc|]]);
        intros res [=].
    + eexists _, [UserFindOne (jwt_id user)].
      split; [reflexivity|split; [by rewrite <- app_assoc|]].
      by intros res [= <-].
  - eexists _, []. split; [reflexivity|split; [reflexivity|]].
    by intros res [= <-].
Qed.

End GateProperties.

(** C2, as amended.  A request whose authorization header is absent is
    answered 401 by the gate; the gate does not call [next()], so no
    principal reaches a handler, and the world after the answer is the
    world before it: nothing was logged, hence neither the verifier, nor
    the identity store, nor the order store was consulted. *)
Theorem absent_header_401
  (verify : string -> option JwtUser) (handler : JwtUser -> Request -> M Response)
  (req : Request) (w : World) :
  headers_authorization req = None ->
  authenticateToken verify req w = (Ok (Responded (sendStatus 401)), w)
  ∧ route verify handler req w = (Ok (sendStatus 401), w)
  ∧ status (sendStatus 401) = 401.
Proof.
  intros H.
  assert (Hgate : authenticateToken verify req w
                  = (Ok (Responded (sendStatus 401)), w)).
  { apply gate_no_token. by rewrite H. }
  split; [exact Hgate|]. split; [|reflexivity].
  by apply route_responded.
Qed.

(** C3.  A request whose credential the verifier rejects is answered 403;
    the only call made is the one to the verifier, so the identity store
    is not consulted, and the handler is not run. *)
Theorem rejected_credential_403
  (verify : string -> option JwtUser) (handler : JwtUser -> Request -> M Response)
  (req : Request) (w : World) (tok : string) :
  token (headers_authorization req) = Some tok ->
  verify tok = None ->
  route verify handler req w
  = (Ok (json 403 (Message "Unauthorized access.")), emit (JwtVerify tok) w)
  ∧ status (json 403 (Message "Unauthorized access.")) = 403
  ∧ ∀ id, UserFindOne id ∈ log (route verify handler req w).2 ->
          UserFindOne id ∈ log w.
Proof.
  intros H Hv.
  assert (Hroute : route verify handler req w
                   = (Ok (json 403 (Message "Unauthorized access.")),
                      emit (JwtVerify tok) w)).
  { apply route_responded. by apply gate_rejected. }
  split; [exact Hroute|]. split; [reflexivity|].
  intros id. rewrite Hroute. cbn. rewrite ?log_emit.
  rewrite elem_of_app, list_elem_of_singleton. by intros [?|?].
Qed.


(** C5.  A request whose credential verifies and whose identity record
    exists but has no role, or the empty string as role, makes the gate
    throw the assertion error: the gate neither answers nor calls
    [next()], so no principal is attached and the handler is not run,
    whatever the handler is. *)
Theorem missing_role_integrity_fault
  (verify : string -> option JwtUser) (handler : JwtUser -> Request -> M Response)
  (req : Request) (w : World) (tok : string) (user : JwtUser) (userFound : User) :
  token (headers_authorization req) = Some tok ->
  verify tok = Some user ->
  Users w !! jwt_id user = Some userFound ->
  User_role userFound = None ∨ User_role userFound = Some "" ->
  authenticateToken verify req w
  = (Throw AssertionError,
     emit (UserFindOne (jwt_id user)) (emit (JwtVerify tok) w))
  ∧ route verify handler req w
    = (Throw AssertionError,
       emit (UserFindOne (jwt_id user)) (emit (JwtVerify tok) w)).
Proof.
  intros H Hv Hu Hrole.
  pose proof (gate_found verify req w tok user userFound H Hv Hu) as Hgate.
  assert (Hfalsy : truthy (User_role userFound) = false).
  { by destruct Hrole as [-> | ->]. }
  rewrite Hfalsy in Hgate.
  split; [exact Hgate|]. by apply route_thrown.
Qed.

(** ** Properties of the order handlers *)

Ltac run_handler :=
  unfold get_order, get_order_try, post_order, post_order_try,
    put_order, put_order_try, delete_order, delete_order_try,
    Order_findOne, Order_findByIdAndUpdate, Order_findByIdAndDelete,
    Order_save, User_exists, and_then, dot_user, toString,
    try_catch, bind, ret, throw; world.

Lemma role_is_not_true (u : JwtUser) (r : string) :
  role_is_not u r = true <-> jwt_role u ≠ Some r.
Proof.
  unfold role_is_not. rewrite negb_true_iff, bool_decide_eq_false. done.
Qed.

Lemma role_is_not_false (u : JwtUser) (r : string) :
  role_is_not u r = false <-> jwt_role u = Some r.
Proof.
  unfold role_is_not. rewrite negb_false_iff, bool_decide_eq_true. done.
Qed.

(** The comparison that the three handlers write out, on an order that
    has an owner, is the rule of the specification. *)
Lemma comparison_is_authorize (u : JwtUser) (o : Order) (owner : string) (w : World) :
  Order_user o = Some owner ->
  and_then (role_is_not u "Admin")
    (v <- dot_user (Some o) ;;
     s <- toString v ;;
     ret (negb (String.eqb s (jwt_id u)))) w
  = (Ok (match authorize u owner with DENY => true | ALLOW => false end), w).
Proof.
  intros Ho. unfold and_then, role_is_not, authorize, dot_user, toString, bind, ret.
  rewrite Ho.
  destruct (decide (jwt_role u = Some "Admin")) as [Ha|Ha].
  - rewrite (bool_decide_eq_true_2 _ Ha). cbn.
    by rewrite (bool_decide_eq_true_2 (_ ∨ _)) by (by left).
  - rewrite (bool_decide_eq_false_2 _ Ha). cbn.
    destruct (String.eqb_spec owner (jwt_id u)) as [He|He]; cbn.
    + by rewrite (bool_decide_eq_true_2 (_ ∨ _)) by (by right).
    + by rewrite (bool_decide_eq_false_2 (_ ∨ _)) by (intros [?|?]; congruence).
Qed.

(** C1, as amended.  On an order that is in the store under a
    well-formed id, the read handler, the update handler and the delete
    handler take the same decision.  An Admin is always allowed.  When
    the order has an owner, the decision is the one of the rule: a
    principal that is Admin or the owner is allowed, every other one is
    answered 403 by each handler and the store stays as it was.  Allowed
    means that the operation is carried out: 200 with the order; the call
    of the update, answered 201 with the updated order, or 400 when a
    value of the body does not cast; 200 with the removed order.  When
    the order has no owner, a principal that is not Admin is answered 400
    by each handler, because the comparison throws. *)
Theorem owner_or_admin_rule
  (u : JwtUser) (rq up : Request) (w : World) (id : string) (o : Order) :
  params_orderID rq = id ->
  body up !! "_id" = Some id ->
  casts id = true ->
  Orders w !! id = Some o ->
  let found := emit (OrderFindOne (Some id)) w in
  let allowed :=
    get_order u rq w = (Ok (json 200 (Doc (Some o))), found)
    ∧ put_order u up w
      = (if update_casts (body up)
         then (Ok (json 201 (Doc (Some (apply_update (body up) o)))),
               set_Orders (<[id := apply_update (body up) o]> (Orders w))
                 (emit (OrderFindByIdAndUpdate (Some id)) found))
         else (Ok (json 400 (Message "Bad Request.")),
               emit (OrderFindByIdAndUpdate (Some id)) found))
    ∧ delete_order u rq w
      = (Ok (json 200 (Doc (Some o))),
         set_Orders (delete id (Orders w))
           (emit (OrderFindByIdAndDelete id) found)) in
  let refused (code : Z) (message : string) :=
    get_order u rq w = (Ok (json code (Message message)), found)
    ∧ put_order u up w = (Ok (json code (Message message)), found)
    ∧ delete_order u rq w = (Ok (json code (Message message)), found) in
  match Order_user o with
  | Some owner =>
      match authorize u owner with
      | ALLOW => allowed
      | DENY => refused 403 "Unauthorized Access."
      end
  | None =>
      (jwt_role u = Some "Admin" -> allowed)
      ∧ (jwt_role u ≠ Some "Admin" -> refused 400 "Bad Request.")
  end.
Proof.
  intros Hrq Hup Hc Hfound. cbn zeta.
  destruct (Order_user o) as [owner|] eqn:Howner.
  - pose proof (fun w' => comparison_is_authorize u o owner w' Howner) as Hcmp.
    unfold and_then, bind, ret in Hcmp.
    unfold get_order, get_order_try, put_order, put_order_try,
      delete_order, delete_order_try, Order_findOne, and_then,
      try_catch, bind, ret.
    rewrite Hrq, Hup, Hc, Hfound. rewrite !Hcmp.
    destruct (authorize u owner); cbn; [|done].
    unfold Order_findByIdAndUpdate, Order_findByIdAndDelete.
    world. rewrite Hc, Hfound. cbn.
    by destruct (update_casts (body up)).
  - unfold get_order, get_order_try, put_order, put_order_try,
      delete_order, delete_order_try, Order_findOne, and_then,
      dot_user, toString, try_catch, bind, ret, throw.
    rewrite Hrq, Hup, Hc, Hfound, Howner.
    split; intros Hrole.
    + rewrite (proj2 (role_is_not_false u "Admin") Hrole). cbn.
      unfold Order_findByIdAndUpdate, Order_findByIdAndDelete.
      world. rewrite Hc, Hfound. cbn.
      by destruct (update_casts (body up)).
    + rewrite (proj2 (role_is_not_true u "Admin") Hrole). done.
Qed.

(** The owner of the document that [findByIdAndUpdate] writes is the
    [user] of the fields whenever the fields have one. *)
Lemma apply_update_user (fields : gmap string string) (o : Order) (v : string) :
  fields !! "user" = Some v -> Order_user (apply_update fields o) = Some v.
Proof. intros H. unfold apply_update. cbn. by rewrite H. Qed.

Lemma apply_update_keeps_user (fields : gmap string string) (o : Order) :
  fields !! "user" = None -> Order_user (apply_update fields o) = Order_user o.
Proof. intros H. unfold apply_update. cbn. by rewrite H. Qed.

(** Where the owner of a stored order can change.  The gate, the read
    handler, the creation handler and the delete handler leave the owner
    of every order that stays in the store as it is; so does the update
    handler when the request body has no [user]. *)
Lemma gate_keeps_Orders (verify : string -> option JwtUser) (req : Request) (w : World) :
  Orders (authenticateToken verify req w).2 = Orders w.
Proof.
  run_gate. destruct (token (headers_authorization req)) as [tok|]; [|done].
  world. destruct (verify tok) as [user|]; [|done].
  world. destruct (Users w !! jwt_id user) as [userFound|]; [|done].
  world. by destruct (truthy (User_role userFound)).
Qed.

(** Creation succeeds when the principal is a stored identity, the type
    is one of the schema and the identifier is free. *)
Lemma post_order_created (oid : string) (u : JwtUser) (req : Request) (w : World) :
  let o := set_user (jwt_id u) (new_Order oid (body req)) in
  is_Some (Users w !! jwt_id u) ->
  validate o = true ->
  Orders w !! Order_id o = None ->
  post_order oid u req w
  = (Ok (json 201 (Doc (Some o))),
     set_Orders (<[Order_id o := o]> (Orders w))
       (emit (OrderSave o) (emit (UserExists (jwt_id u)) w))).
Proof.
  intros o Hu Hv Hfree. subst o. run_handler.
  rewrite (bool_decide_eq_true_2 _ Hu). world.
  cbn in Hfree. by rewrite Hv, Hfree.
Qed.

(** C7.  Whenever the creation handler answers 201, the body of the
    answer is an order that was not in the store before, is in the store
    now, and is owned by the authenticated principal, whatever the request
    body says about [user]. *)
Theorem created_order_owner_is_principal
  (oid : string) (u : JwtUser) (req : Request) (w w' : World) (res : Response) :
  post_order oid u req w = (Ok res, w') ->
  status res = 201 ->
  ∃ o, payload res = Doc (Some o)
       ∧ Orders w !! Order_id o = None
       ∧ Orders w' !! Order_id o = Some o
       ∧ Order_user o = Some (jwt_id u).
Proof.
  revert w' res. run_handler. intros w' res.
  set (o := set_user (jwt_id u) (new_Order oid (body req))).
  destruct (bool_decide (is_Some (Users w !! jwt_id u))); world;
    [|by intros [= <- <-] ?].
  destruct (validate o); [|by intros [= <- <-] ?].
  destruct (Orders w !! default oid (body req !! "_id")) eqn:Hfree; world;
    [by intros [= <- <-] ?|].
  intros [= <- <-] _. exists o. cbn.
  split; [reflexivity|]. split; [exact Hfree|].
  split; [apply lookup_insert_eq|reflexivity].
Qed.

(** C8, as amended.  Reading a well-formed order id that resolves to no
    stored order is answered 404 after the lookup and nothing else; an id
    that is not well-formed makes the lookup reject, and the answer is
    400.  In both cases the principal does not occur in the answer, which
    is the same for every principal: no decision was taken. *)
Theorem read_missing_order_404 (u : JwtUser) (req : Request) (w : World) :
  Orders w !! params_orderID req = None ->
  get_order u req w
  = (Ok (if casts (params_orderID req)
         then json 404 (Message "No order found.")
         else json 400 (Message "Bad Request.")),
     emit (OrderFindOne (Some (params_orderID req))) w)
  ∧ status (json 404 (Message "No order found.")) = 404
  ∧ ∀ u', get_order u' req w = get_order u req w.
Proof.
  intros H.
  assert (Hall : ∀ v, get_order v req w
                      = (Ok (if casts (params_orderID req)
                             then json 404 (Message "No order found.")
                             else json 400 (Message "Bad Request.")),
                         emit (OrderFindOne (Some (params_orderID req))) w)).
  { intros v. run_handler. rewrite H.
    by destruct (casts (params_orderID req)). }
  split; [apply Hall|]. split; [reflexivity|].
  intros u'. by rewrite !Hall.
Qed.


Lemma set_Orders_same (w : World) : set_Orders (Orders w) w = w.
Proof. by destruct w. Qed.

(** C10, as amended.  A delete by an Admin of a well-formed order id that
    resolves to no stored order is answered 200 with [null] as body, and
    the store is as it was.  Whatever the id and the state, the delete
    handler answers an Admin with 200 or, when the id is not well-formed,
    with 400: never with 404. *)
Theorem admin_delete_missing_order_200 (u : JwtUser) (req : Request) (w : World) :
  jwt_role u = Some "Admin" ->
  casts (params_orderID req) = true ->
  Orders w !! params_orderID req = None ->
  delete_order u req w
  = (Ok (json 200 (Doc None)),
     emit (OrderFindByIdAndDelete (params_orderID req))
       (emit (OrderFindOne (Some (params_orderID req))) w))
  ∧ status (json 200 (Doc None)) = 200
  ∧ ∀ rq0 w0, ∃ res w1,
      delete_order u rq0 w0 = (Ok res, w1)
      ∧ (if casts (params_orderID rq0) then status res = 200 else status res = 400)
      ∧ status res ≠ 404.
Proof.
  intros Hrole Hc Hmiss.
  assert (Hnot : role_is_not u "Admin" = false) by by apply role_is_not_false.
  split; [|split; [reflexivity|]].
  - run_handler. rewrite Hc, Hnot. world. rewrite Hmiss.
    rewrite (delete_id _ _ Hmiss).
    rewrite <- (Orders_emit (OrderFindOne (Some (params_orderID req))) w) at 1.
    rewrite <- (Orders_emit (OrderFindByIdAndDelete (params_orderID req))
                  (emit (OrderFindOne (Some (params_orderID req))) w)) at 1.
    by rewrite set_Orders_same.
  - intros rq0 w0. run_handler.
    destruct (casts (params_orderID rq0)); world; [|by eexists _, _].
    rewrite Hnot. world. by eexists _, _.
Qed.

(** ** Further properties of the authentication gate *)

(** The gate reads the identity store and writes to no store. *)
Lemma gate_keeps_Users (verify : string -> option JwtUser) (req : Request) (w : World) :
  Users (authenticateToken verify req w).2 = Users w.
Proof.
  run_gate. destruct (token (headers_authorization req)) as [tok|]; [|done].
  world. destruct (verify tok) as [user|]; [|done].
  world. destruct (Users w !! jwt_id user) as [userFound|]; [|done].
  world. by destruct (truthy (User_role userFound)).
Qed.

(** What the gate decides depends on the identity store only. *)
Lemma gate_outcome_of_Users (verify : string -> option JwtUser) (req : Request)
  (w1 w2 : World) :
  Users w1 = Users w2 ->
  (authenticateToken verify req w1).1 = (authenticateToken verify req w2).1.
Proof.
  intros HU. run_gate.
  destruct (token (headers_authorization req)) as [tok|]; [|done].
  world. destruct (verify tok) as [user|]; [|done].
  world. rewrite HU. destruct (Users w2 !! jwt_id user) as [userFound|]; [|done].
  world. by destruct (truthy (User_role userFound)).
Qed.

(** Every principal that the gate lets through is backed by a credential
    taken from the header and accepted by the verifier, and by a stored
    identity under the id of the payload; its role is the stored role,
    which is not empty. *)
Theorem gate_next_sound
  (verify : string -> option JwtUser) (req : Request) (w w' : World) (u : JwtUser) :
  authenticateToken verify req w = (Ok (Next u), w') ->
  ∃ tok user userFound,
    token (headers_authorization req) = Some tok
    ∧ verify tok = Some user
    ∧ jwt_id u = jwt_id user
    ∧ Users w !! jwt_id u = Some userFound
    ∧ jwt_role u = User_role userFound
    ∧ truthy (jwt_role u) = true
    ∧ w' = emit (UserFindOne (jwt_id user)) (emit (JwtVerify tok) w).
Proof.
  destruct (token (headers_authorization req)) as [tok|] eqn:Htok.
  2:{ rewrite (gate_no_token verify req w Htok). intros [=]. }
  destruct (verify tok) as [user|] eqn:Hv.
  2:{ rewrite (gate_rejected verify req w tok Htok Hv). intros [=]. }
  destruct (Users w !! jwt_id user) as [userFound|] eqn:Hu.
  2:{ rewrite (gate_unknown verify req w tok user Htok Hv Hu). intros [=]. }
  rewrite (gate_found verify req w tok user userFound Htok Hv Hu).
  destruct (truthy (User_role userFound)) eqn:Hrole; intros [= <- <-].
  by exists tok, user, userFound.
Qed.

(** When the gate answers by itself the status is 401 or 403: 401 exactly
    when the header yields no credential, and then nothing has been
    called; 403 when the verifier rejects the credential or the identity
    store has no record under the id of the payload. *)
Theorem gate_answers_401_or_403
  (verify : string -> option JwtUser) (req : Request) (w w' : World) (res : Response) :
  authenticateToken verify req w = (Ok (Responded res), w') ->
  (status res = 401 ∧ token (headers_authorization req) = None ∧ w' = w)
  ∨ (status res = 403
     ∧ ∃ tok, token (headers_authorization req) = Some tok
              ∧ (verify tok = None
                 ∨ ∃ user, verify tok = Some user ∧ Users w !! jwt_id user = None)).
Proof.
  intros Hrun.
  destruct (token (headers_authorization req)) as [tok|] eqn:Htok.
  2:{ rewrite (gate_no_token verify req w Htok) in Hrun.
      injection Hrun as <- <-. by left. }
  right. destruct (verify tok) as [user|] eqn:Hv.
  2:{ rewrite (gate_rejected verify req w tok Htok Hv) in Hrun.
      injection Hrun as <- <-.
      split; [done|]. exists tok. by split; [|left]. }
  destruct (Users w !! jwt_id user) as [userFound|] eqn:Hu.
  2:{ rewrite (gate_unknown verify req w tok user Htok Hv Hu) in Hrun.
      injection Hrun as <- <-.
      split; [done|]. exists tok. split; [done|]. right. by exists user. }
  rewrite (gate_found verify req w tok user userFound Htok Hv Hu) in Hrun.
  by destruct (truthy (User_role userFound)).
Qed.

(** The role of the principal is the one of the identity store: a role
    carried by the payload of the credential is overwritten, so a
    credential cannot raise the role of its identity. *)
Theorem principal_role_is_stored_role
  (verify : string -> option JwtUser) (handler : JwtUser -> Request -> M Response)
  (req : Request) (w : World) (tok : string) (user : JwtUser) (userFound : User) :
  token (headers_authorization req) = Some tok ->
  verify tok = Some user ->
  Users w !! jwt_id user = Some userFound ->
  truthy (User_role userFound) = true ->
  route verify handler req w
  = handler (mkJwtUser (jwt_id user) (User_role userFound)) req
      (emit (UserFindOne (jwt_id user)) (emit (JwtVerify tok) w)).
Proof.
  intros Htok Hv Hu Hrole. apply route_next.
  rewrite (gate_found verify req w tok user userFound Htok Hv Hu).
  by rewrite Hrole.
Qed.

(** Authenticating changes neither store, so authenticating again with
    the same request gives the same outcome: the same principal, the same
    answer or the same fault. *)
Theorem gate_idempotent
  (verify : string -> option JwtUser) (req : Request) (w : World) :
  Users (authenticateToken verify req w).2 = Users w
  ∧ Orders (authenticateToken verify req w).2 = Orders w
  ∧ (authenticateToken verify req (authenticateToken verify req w).2).1
    = (authenticateToken verify req w).1.
Proof.
  split; [apply gate_keeps_Users|]. split; [apply gate_keeps_Orders|].
  apply gate_outcome_of_Users, gate_keeps_Users.
Qed.

(** ** The credential in the header *)

Lemma split_not_nil (sep : Ascii.ascii) (s : string) : split sep s ≠ [].
Proof.
  destruct s as [|c s]; cbn [split]; [done|].
  destruct (Ascii.eqb c sep); [done|]. by destruct (split sep s).
Qed.

Lemma split_spaceless (t : string) :
  spaceless t = true -> split " " t = [t].
Proof.
  induction t as [|c t IH]; cbn [split spaceless]; [done|].
  intros [Hc Ht]%andb_true_iff. apply negb_true_iff in Hc.
  rewrite Hc, (IH Ht). done.
Qed.

Lemma split_app_space (s t : string) :
  spaceless s = true -> split " " (s ++ String " " t) = s :: split " " t.
Proof.
  induction s as [|c s IH]; [done|]. cbn [spaceless].
  intros [Hc Hs]%andb_true_iff. apply negb_true_iff in Hc.
  simpl. rewrite Hc, (IH Hs). done.
Qed.

Lemma truthy_app_space (s t : string) : truthy (Some (s ++ String " " t)) = true.
Proof. by destruct s. Qed.

(** The gate takes the second of the pieces of the header between
    spaces and looks neither at the first piece nor at what follows the
    second: any scheme word, the empty one included, in front of the
    credential gives the credential, and a third piece is dropped. *)
Theorem token_ignores_scheme (scheme credential rest : string) :
  spaceless scheme = true ->
  spaceless credential = true ->
  token (Some (scheme ++ " " ++ credential)) = Some credential
  ∧ token (Some (scheme ++ " " ++ credential ++ " " ++ rest)) = Some credential.
Proof.
  intros Hs Hc. unfold token.
  change (" " ++ credential ++ " " ++ rest)
    with (String " " (credential ++ String " " rest)).
  change (" " ++ credential) with (String " " credential).
  rewrite !truthy_app_space, !split_app_space by done.
  by rewrite split_spaceless.
Qed.

(** A header that is not empty and has no space in it, such as a
    credential sent without a scheme word, yields no credential: the gate
    answers 401 and calls neither the verifier nor a store. *)
Theorem header_without_space_401
  (verify : string -> option JwtUser) (handler : JwtUser -> Request -> M Response)
  (req : Request) (w : World) (h : string) :
  headers_authorization req = Some h ->
  h ≠ "" ->
  spaceless h = true ->
  route verify handler req w = (Ok (sendStatus 401), w).
Proof.
  intros Hh Hne Hsp. apply route_responded, gate_no_token.
  rewrite Hh. unfold token, truthy.
  destruct (String.eqb_spec h "") as [->|_]; [done|]. cbn.
  by rewrite split_spaceless.
Qed.

(** The order store after a creation: as before, or with the new
    document under an identifier that was free. *)
Lemma post_order_Orders (oid : string) (u : JwtUser) (req : Request) (w : World) :
  let o := set_user (jwt_id u) (new_Order oid (body req)) in
  Orders (post_order oid u req w).2 = Orders w
  ∨ (Orders w !! Order_id o = None
     ∧ Orders (post_order oid u req w).2 = <[Order_id o := o]> (Orders w)).
Proof.
  cbn zeta. run_handler.
  destruct (bool_decide (is_Some (Users w !! jwt_id u))); [|by left]. world.
  destruct (validate _); [|by left].
  destruct (Orders w !! default oid (body req !! "_id")) eqn:Hfree; [by left|].
  right. by world.
Qed.

(** The order store after an update: as before, or with the target
    rewritten, and then the target was stored and the principal is Admin
    or its owner. *)
Lemma put_order_Orders (u : JwtUser) (req : Request) (w : World) :
  Orders (put_order u req w).2 = Orders w
  ∨ ∃ i o, body req !! "_id" = Some i
           ∧ Orders w !! i = Some o
           ∧ (jwt_role u = Some "Admin" ∨ Order_user o = Some (jwt_id u))
           ∧ Orders (put_order u req w).2
             = <[i := apply_update (body req) o]> (Orders w).
Proof.
  run_handler.
  destruct (body req !! "_id") as [i|]; cbn.
  2:{ left. by destruct (role_is_not u "Admin"). }
  destruct (casts i) eqn:Hci; cbn; [|by left].
  destruct (Orders w !! i) as [o|] eqn:Hi; cbn.
  2:{ left. by destruct (role_is_not u "Admin"). }
  destruct (role_is_not u "Admin") eqn:Hrole; cbn.
  - destruct (Order_user o) as [owner|] eqn:Ho; cbn; [|by left].
    destruct (String.eqb_spec owner (jwt_id u)) as [->|Hne]; world; [|by left].
    rewrite ?Hci. destruct (update_casts (body req)); world; [|by left].
    rewrite Hi. world. right. exists i, o. eauto.
  - world. rewrite ?Hci. destruct (update_casts (body req)); world; [|by left].
    rewrite Hi. world. right. exists i, o.
    apply role_is_not_false in Hrole. eauto.
Qed.

(** The order store after a delete: as before, or without the target,
    and then the principal is Admin or the owner of the stored target. *)
Lemma delete_order_Orders (u : JwtUser) (req : Request) (w : World) :
  Orders (delete_order u req w).2 = Orders w
  ∨ ((jwt_role u = Some "Admin"
      ∨ ∃ o, Orders w !! params_orderID req = Some o
             ∧ Order_user o = Some (jwt_id u))
     ∧ Orders (delete_order u req w).2 = delete (params_orderID req) (Orders w)).
Proof.
  run_handler.
  destruct (casts (params_orderID req)) eqn:Hc; cbn; [|by left].
  destruct (role_is_not u "Admin") eqn:Hrole; cbn.
  - destruct (Orders w !! params_orderID req) as [o|] eqn:Hi; cbn; [|by left].
    destruct (Order_user o) as [owner|] eqn:Ho; cbn; [|by left].
    destruct (String.eqb_spec owner (jwt_id u)) as [->|Hne]; world; [|by left].
    rewrite ?Hc. world. right. split; [|done]. right. by exists o.
  - world. rewrite ?Hc. world. right. apply role_is_not_false in Hrole. eauto.
Qed.

Lemma get_order_keeps_Orders (u : JwtUser) (req : Request) (w : World) :
  Orders (get_order u req w).2 = Orders w.
Proof.
  run_handler; repeat (case_match; simplify_eq; world);
    by autorewrite with world.
Qed.

Lemma post_order_keeps_stored (oid : string) (u : JwtUser) (req : Request)
  (w : World) (id : string) (o : Order) :
  Orders w !! id = Some o ->
  Orders (post_order oid u req w).2 !! id = Some o.
Proof.
  intros H. run_handler.
  destruct (bool_decide (is_Some (Users w !! jwt_id u))); [|done]. world.
  destruct (validate _); [|done].
  destruct (Orders w !! default oid (body req !! "_id")) eqn:Hfree; [done|].
  world. rewrite lookup_insert_ne; [done|]. by intros <-; rewrite Hfree in H.
Qed.

Lemma delete_order_keeps_rest (u : JwtUser) (req : Request) (w : World)
  (id : string) (o : Order) :
  Orders (delete_order u req w).2 !! id = Some o ->
  Orders w !! id = Some o.
Proof.
  destruct (delete_order_Orders u req w) as [->|[_ ->]]; [done|].
  rewrite lookup_delete_Some. by intros [_ ?].
Qed.

(** An update whose body, an object of string-valued properties, has no
    [user] property leaves the owner of every stored order as it was,
    whatever the outcome of the update.  (Bodies with update operators of
    the store are not represented, see [Request].) *)
Lemma put_order_keeps_owner (u : JwtUser) (req : Request) (w : World)
  (id : string) (o : Order) :
  body req !! "user" = None ->
  Orders w !! id = Some o ->
  ∃ o', Orders (put_order u req w).2 !! id = Some o'
        ∧ Order_user o' = Order_user o.
Proof.
  intros Hbody H.
  destruct (put_order_Orders u req w) as [->|(i & o0 & _ & Hi & _ & ->)];
    [by exists o|].
  destruct (decide (i = id)) as [->|Hne].
  - rewrite lookup_insert_eq. eexists. split; [done|].
    rewrite apply_update_keeps_user by done. congruence.
  - rewrite lookup_insert_ne by done. by exists o.
Qed.

Lemma handlers_keep_Users (oid : string) (u : JwtUser) (req : Request) (w : World) :
  Users (get_order u req w).2 = Users w
  ∧ Users (post_order oid u req w).2 = Users w
  ∧ Users (put_order u req w).2 = Users w
  ∧ Users (delete_order u req w).2 = Users w.
Proof.
  repeat split; run_handler;
    repeat (case_match; simplify_eq; world); by autorewrite with world.
Qed.

(** A route leaves the world of the gate, or the world of its handler
    run on the world of the gate with a principal that the gate let
    through. *)
Lemma route_cases (verify : string -> option JwtUser)
  (handler : JwtUser -> Request -> M Response) (req : Request) (w : World) :
  (route verify handler req w).2 = (authenticateToken verify req w).2
  ∨ ∃ u, authenticateToken verify req w
         = (Ok (Next u), (authenticateToken verify req w).2)
         ∧ route verify handler req w
           = handler u req (authenticateToken verify req w).2.
Proof.
  unfold route, bind, ret.
  destruct (authenticateToken verify req w) as [[[res|u]|e] w']; cbn;
    [by left| |by left].
  right. by exists u.
Qed.

(** No request to the four routes, and no sequence of them, writes to the
    identity store: the gate and the handlers only read it. *)
Theorem identity_store_never_written
  (verify : string -> option JwtUser) (cs : list Call) (w : World) :
  Users (serve_all verify cs w) = Users w.
Proof.
  revert w. induction cs as [|c cs IH]; intros w; cbn; [done|].
  rewrite IH. clear IH.
  assert (Hroute : ∀ handler req,
            (∀ u w0, Users (handler u req w0).2 = Users w0) ->
            Users (route verify handler req w).2 = Users w).
  { intros handler req Hh.
    destruct (route_cases verify handler req w) as [->|(u & _ & ->)].
    - apply gate_keeps_Users.
    - rewrite Hh. apply gate_keeps_Users. }
  destruct c as [req|oid req|req|req]; cbn; apply Hroute; intros u w0.
  - apply (handlers_keep_Users "" u req w0).
  - apply (handlers_keep_Users oid u req w0).
  - apply (handlers_keep_Users "" u req w0).
  - apply (handlers_keep_Users "" u req w0).
Qed.

(** Each handler keeps the shape of the order store. *)
Lemma handlers_keep_store_ok (oid : string) (u : JwtUser) (req : Request) (w : World) :
  store_ok w ->
  store_ok (get_order u req w).2
  ∧ store_ok (post_order oid u req w).2
  ∧ store_ok (put_order u req w).2
  ∧ store_ok (delete_order u req w).2.
Proof.
  unfold store_ok. intros Hok. split; [|split; [|split]].
  - by rewrite get_order_keeps_Orders.
  - destruct (post_order_Orders oid u req w) as [->|[_ ->]]; [done|].
    apply map_Forall_insert_2; [|done]. cbn. eauto.
  - destruct (put_order_Orders u req w) as [->|(i & o & _ & Hi & _ & ->)]; [done|].
    apply map_Forall_insert_2; [|done].
    destruct (Hok i o Hi) as [Hid Hown]. split; [done|].
    unfold apply_update; cbn. by destruct (body req !! "user").
  - destruct (delete_order_Orders u req w) as [->|[_ ->]]; [done|].
    by apply map_Forall_delete.
Qed.

(** The shape of the order store is an invariant of the server: if every
    order is stored under its own identifier and has an owner, the same
    holds after any sequence of requests to the four routes; in
    particular it holds in every state reached from the empty store. *)
Theorem store_ok_invariant
  (verify : string -> option JwtUser) (cs : list Call) (w : World) :
  store_ok w -> store_ok (serve_all verify cs w).
Proof.
  revert w. induction cs as [|c cs IH]; intros w Hok; cbn; [done|].
  apply IH. clear IH.
  assert (Hgate : ∀ req, store_ok (authenticateToken verify req w).2).
  { intros req. unfold store_ok. by rewrite gate_keeps_Orders. }
  assert (Hroute : ∀ handler req,
            (∀ u w0, store_ok w0 -> store_ok (handler u req w0).2) ->
            store_ok (route verify handler req w).2).
  { intros handler req Hh.
    destruct (route_cases verify handler req w) as [Hr|(u & _ & ->)].
    - unfold store_ok. rewrite Hr. apply Hgate.
    - apply Hh, Hgate. }
  destruct c as [req|oid req|req|req]; cbn; apply Hroute; intros u w0 Hw0.
  - apply (handlers_keep_store_ok "" u req w0 Hw0).
  - apply (handlers_keep_store_ok oid u req w0 Hw0).
  - apply (handlers_keep_store_ok "" u req w0 Hw0).
  - apply (handlers_keep_store_ok "" u req w0 Hw0).
Qed.

(** No exception leaves a handler, and each handler has a fixed set of
    statuses: read 200, 403, 404 or 400; creation 201 or 400; update 201,
    403, 404 or 400; delete 200, 403 or 400. *)
Theorem handlers_always_answer (oid : string) (u : JwtUser) (req : Request) (w : World) :
  (∃ res w', get_order u req w = (Ok res, w')
             ∧ (status res = 200 ∨ status res = 403 ∨ status res = 404
                ∨ status res = 400))
  ∧ (∃ res w', post_order oid u req w = (Ok res, w')
               ∧ (status res = 201 ∨ status res = 400))
  ∧ (∃ res w', put_order u req w = (Ok res, w')
               ∧ (status res = 201 ∨ status res = 403 ∨ status res = 404
                  ∨ status res = 400))
  ∧ (∃ res w', delete_order u req w = (Ok res, w')
               ∧ (status res = 200 ∨ status res = 403 ∨ status res = 400)).
Proof.
  split; [|split; [|split]]; run_handler;
    repeat (case_match; simplify_eq; world);
    eexists _, _; (split; [reflexivity|]); cbn; tauto.
Qed.

(** A request touches at most its target: every other order is stored
    after the request exactly as before.  Reading touches nothing. *)
Theorem handlers_touch_target_only
  (oid : string) (u : JwtUser) (req : Request) (w : World) (id : string) :
  Orders (get_order u req w).2 !! id = Orders w !! id
  ∧ (id ≠ default oid (body req !! "_id") ->
     Orders (post_order oid u req w).2 !! id = Orders w !! id)
  ∧ (body req !! "_id" ≠ Some id ->
     Orders (put_order u req w).2 !! id = Orders w !! id)
  ∧ (id ≠ params_orderID req ->
     Orders (delete_order u req w).2 !! id = Orders w !! id).
Proof.
  split; [|split; [|split]].
  - by rewrite get_order_keeps_Orders.
  - intros Hne.
    destruct (post_order_Orders oid u req w) as [->|[_ ->]]; [done|].
    by rewrite lookup_insert_ne.
  - intros Hne.
    destruct (put_order_Orders u req w) as [->|(i & o & Hi & _ & _ & ->)]; [done|].
    rewrite lookup_insert_ne; [done|]. intros ->. by apply Hne.
  - intros Hne.
    destruct (delete_order_Orders u req w) as [->|[_ ->]]; [done|].
    by rewrite lookup_delete_ne.
Qed.

(** A principal that is not Admin changes the order store through an
    update or a delete only if the target is stored and owned by that
    principal; target missing, target owned by someone else or target
    without owner all leave the store as it was. *)
Theorem only_owner_or_admin_mutates (u : JwtUser) (req : Request) (w : World) :
  jwt_role u ≠ Some "Admin" ->
  (Orders (put_order u req w).2 ≠ Orders w ->
   ∃ id o, body req !! "_id" = Some id
           ∧ Orders w !! id = Some o
           ∧ Order_user o = Some (jwt_id u))
  ∧ (Orders (delete_order u req w).2 ≠ Orders w ->
     ∃ o, Orders w !! params_orderID req = Some o
          ∧ Order_user o = Some (jwt_id u)).
Proof.
  intros Hrole. split; intros Hchanged.
  - destruct (put_order_Orders u req w) as [?|(i & o & Hi & Ho & [?|Hown] & _)];
      [done|done|]. by exists i, o.
  - destruct (delete_order_Orders u req w) as [?|[[?|Hown] _]]; done.
Qed.

(** ** How the requests compose *)

(** What a 201 of the creation handler means. *)
Lemma post_order_201 (oid : string) (u : JwtUser) (req : Request)
  (w w' : World) (res : Response) :
  let o := set_user (jwt_id u) (new_Order oid (body req)) in
  post_order oid u req w = (Ok res, w') ->
  status res = 201 ->
  res = json 201 (Doc (Some o))
  ∧ casts (Order_id o) = true
  ∧ Orders w !! Order_id o = None
  ∧ Orders w' = <[Order_id o := o]> (Orders w).
Proof.
  cbn zeta. revert w' res. run_handler. intros w' res.
  destruct (bool_decide (is_Some (Users w !! jwt_id u))); world;
    [|by intros [= <- <-] ?].
  destruct (validate _) eqn:Hv; [|by intros [= <- <-] ?].
  apply andb_true_iff in Hv as [Hc _]. cbn in Hc.
  destruct (Orders w !! default oid (body req !! "_id")) eqn:Hfree; world;
    [by intros [= <- <-] ?|].
  by intros [= <- <-] _.
Qed.

(** The read handler on a stored order that has an owner. *)
Lemma get_order_stored (v : JwtUser) (rq : Request) (w : World) (o : Order)
  (owner : string) :
  casts (params_orderID rq) = true ->
  Orders w !! params_orderID rq = Some o ->
  Order_user o = Some owner ->
  get_order v rq w
  = (Ok (match authorize v owner with
         | ALLOW => json 200 (Doc (Some o))
         | DENY => json 403 (Message "Unauthorized Access.")
         end),
     emit (OrderFindOne (Some (params_orderID rq))) w).
Proof.
  intros Hc Hfound Howner.
  pose proof (fun w' => comparison_is_authorize v o owner w' Howner) as Hcmp.
  unfold and_then, bind, ret in Hcmp.
  unfold get_order, get_order_try, Order_findOne, and_then, try_catch, bind, ret.
  rewrite Hc, Hfound, Hcmp. by destruct (authorize v owner).
Qed.

Lemma get_order_missing (v : JwtUser) (rq : Request) (w : World) :
  casts (params_orderID rq) = true ->
  Orders w !! params_orderID rq = None ->
  get_order v rq w
  = (Ok (json 404 (Message "No order found.")),
     emit (OrderFindOne (Some (params_orderID rq))) w).
Proof. intros Hc H. run_handler. by rewrite Hc, H. Qed.

Lemma authorize_owner (v : JwtUser) : authorize v (jwt_id v) = ALLOW.
Proof. unfold authorize. by rewrite bool_decide_eq_true_2 by (by right). Qed.

Lemma authorize_admin (v : JwtUser) (owner : string) :
  jwt_role v = Some "Admin" -> authorize v owner = ALLOW.
Proof. intros H. unfold authorize. by rewrite bool_decide_eq_true_2 by (by left). Qed.

Lemma authorize_stranger (v : JwtUser) (owner : string) :
  jwt_role v ≠ Some "Admin" -> jwt_id v ≠ owner -> authorize v owner = DENY.
Proof.
  intros Hr Hi. unfold authorize.
  by rewrite bool_decide_eq_false_2 by (intros [?|?]; done).
Qed.

(** Create, then read.  The order of a 201 can be read back at once: its
    creator and every Admin get it with 200, unchanged, and every other
    principal gets 403. *)
Theorem create_then_read
  (oid : string) (u : JwtUser) (req : Request) (w w' : World) (res : Response)
  (v : JwtUser) (rq : Request) :
  post_order oid u req w = (Ok res, w') ->
  status res = 201 ->
  params_orderID rq = default oid (body req !! "_id") ->
  (jwt_role v = Some "Admin" ∨ jwt_id v = jwt_id u ->
   ∃ w'', get_order v rq w' = (Ok (json 200 (payload res)), w''))
  ∧ (jwt_role v ≠ Some "Admin" -> jwt_id v ≠ jwt_id u ->
     ∃ w'', get_order v rq w'
            = (Ok (json 403 (Message "Unauthorized Access.")), w'')).
Proof.
  intros Hpost H201 Hrq.
  destruct (post_order_201 oid u req w w' res Hpost H201) as (-> & Hc & _ & HO).
  set (o := set_user (jwt_id u) (new_Order oid (body req))) in *.
  assert (Hstored : Orders w' !! params_orderID rq = Some o).
  { rewrite HO, Hrq. apply lookup_insert_eq. }
  assert (Hcasts : casts (params_orderID rq) = true) by by rewrite Hrq.
  pose proof (get_order_stored v rq w' o (jwt_id u) Hcasts Hstored eq_refl) as Hget.
  split.
  - intros Hallowed. eexists. rewrite Hget.
    replace (authorize v (jwt_id u)) with ALLOW; [done|].
    destruct Hallowed as [Ha|Hi]; [by rewrite authorize_admin|].
    by rewrite <- Hi, authorize_owner.
  - intros Hr Hi. eexists. rewrite Hget. by rewrite authorize_stranger.
Qed.

(** What a 200 of the delete handler means: the target is gone. *)
Lemma delete_order_200 (u : JwtUser) (rq : Request) (w w' : World) (res : Response) :
  delete_order u rq w = (Ok res, w') ->
  status res = 200 ->
  res = json 200 (Doc (Orders w !! params_orderID rq))
  ∧ casts (params_orderID rq) = true
  ∧ Orders w' = delete (params_orderID rq) (Orders w).
Proof.
  revert w' res. run_handler. intros w' res.
  destruct (casts (params_orderID rq)) eqn:Hc; cbn; [|by intros [= <- <-] ?].
  destruct (role_is_not u "Admin"); cbn.
  - destruct (Orders w !! params_orderID rq) as [o|] eqn:Hi; cbn;
      [|by intros [= <- <-] ?].
    destruct (Order_user o); cbn; [|by intros [= <- <-] ?].
    destruct (negb _); world; rewrite ?Hc, ?Hi; world; by intros [= <- <-] ?.
  - world. rewrite ?Hc. world. by intros [= <- <-] _.
Qed.

Lemma delete_order_missing (v : JwtUser) (rq : Request) (w : World) :
  casts (params_orderID rq) = true ->
  Orders w !! params_orderID rq = None ->
  (delete_order v rq w).1
  = Ok (if role_is_not v "Admin" then json 400 (Message "Bad Request.")
        else json 200 (Doc None)).
Proof.
  intros Hc H. run_handler. rewrite Hc, H.
  destruct (role_is_not v "Admin"); world; [done|]. by rewrite ?Hc, ?H.
Qed.

(** Delete, then read or delete again.  After a delete answered 200 the
    target is gone for everybody: every read of it is answered 404; a
    second delete of it is answered 400 to a principal that is not Admin,
    its former owner included, and 200 with [null] to an Admin. *)
Theorem delete_then_again
  (u : JwtUser) (rq : Request) (w w' : World) (res : Response) (v : JwtUser) :
  delete_order u rq w = (Ok res, w') ->
  status res = 200 ->
  Orders w' !! params_orderID rq = None
  ∧ (get_order v rq w').1 = Ok (json 404 (Message "No order found."))
  ∧ (jwt_role v ≠ Some "Admin" ->
     (delete_order v rq w').1 = Ok (json 400 (Message "Bad Request.")))
  ∧ (jwt_role v = Some "Admin" ->
     (delete_order v rq w').1 = Ok (json 200 (Doc None))).
Proof.
  intros Hdel H200.
  destruct (delete_order_200 u rq w w' res Hdel H200) as (_ & Hc & HO).
  assert (Hgone : Orders w' !! params_orderID rq = None).
  { rewrite HO. apply lookup_delete_eq. }
  split; [exact Hgone|]. split; [by rewrite get_order_missing|].
  split; intros Hrole; rewrite (delete_order_missing v rq w' Hc Hgone).
  - by rewrite (proj2 (role_is_not_true v "Admin") Hrole).
  - by rewrite (proj2 (role_is_not_false v "Admin") Hrole).
Qed.

(** What a 201 of the update handler means. *)
Lemma put_order_201 (u : JwtUser) (up : Request) (w w' : World) (res : Response) :
  put_order u up w = (Ok res, w') ->
  status res = 201 ->
  ∃ id o, body up !! "_id" = Some id
          ∧ casts id = true
          ∧ Orders w !! id = Some o
          ∧ res = json 201 (Doc (Some (apply_update (body up) o)))
          ∧ Orders w' = <[id := apply_update (body up) o]> (Orders w).
Proof.
  revert w' res. run_handler. intros w' res.
  destruct (body up !! "_id") as [i|]; cbn.
  2:{ destruct (role_is_not u "Admin"); cbn; by intros [= <- <-] ?. }
  destruct (casts i) eqn:Hci; cbn; [|by intros [= <- <-] ?].
  destruct (Orders w !! i) as [o|] eqn:Hi; cbn.
  2:{ destruct (role_is_not u "Admin"); cbn; by intros [= <- <-] ?. }
  destruct (role_is_not u "Admin"); cbn.
  - destruct (Order_user o); cbn; [|by intros [= <- <-] ?].
    destruct (negb _); world; [by intros [= <- <-] ?|].
    rewrite ?Hci. destruct (update_casts (body up)); world;
      [|by intros [= <- <-] ?].
    rewrite Hi. world. intros [= <- <-] _. by exists i, o.
  - world. rewrite ?Hci. destruct (update_casts (body up)); world;
      [|by intros [= <- <-] ?].
    rewrite Hi. world. intros [= <- <-] _. by exists i, o.
Qed.

(** Update, then read, for a body of string-valued properties.  The
    document of a 201 is the stored one: an Admin, and the identity that
    the updated document names as owner, read back exactly the document
    that the update returned; the type is the one of the body when the
    body has a [type] property, and the description of the order before
    is kept when the body has no [description] property. *)
Theorem update_then_read
  (u : JwtUser) (up : Request) (w w' : World) (res : Response) :
  put_order u up w = (Ok res, w') ->
  status res = 201 ->
  ∃ id o o',
    body up !! "_id" = Some id
    ∧ Orders w !! id = Some o
    ∧ payload res = Doc (Some o')
    ∧ Orders w' !! id = Some o'
    ∧ Order_id o' = Order_id o
    ∧ Order_type o' = default (Order_type o) (body up !! "type")
    ∧ (body up !! "description" = None -> Order_description o' = Order_description o)
    ∧ ∀ v rq, params_orderID rq = id ->
              jwt_role v = Some "Admin" ∨ Order_user o' = Some (jwt_id v) ->
              (get_order v rq w').1 = Ok (json 200 (Doc (Some o'))).
Proof.
  intros Hput H201.
  destruct (put_order_201 u up w w' res Hput H201)
    as (id & o & Hid & Hc & Ho & -> & HO).
  exists id, o, (apply_update (body up) o).
  assert (Hstored : Orders w' !! id = Some (apply_update (body up) o)).
  { rewrite HO. apply lookup_insert_eq. }
  repeat (split; [done|]).
  split. { intros Hd. unfold apply_update. cbn. by rewrite Hd. }
  intros v rq Hrq Hallowed. subst id.
  remember (apply_update (body up) o) as o' eqn:Ho'. clear Ho'.
  destruct Hallowed as [Ha|Hown].
  - run_handler. rewrite Hc, Hstored.
    rewrite (proj2 (role_is_not_false v "Admin") Ha). done.
  - rewrite (get_order_stored v rq w' o' (jwt_id v) Hc Hstored Hown).
    by rewrite authorize_owner.
Qed.

(** Creation never overwrites.  An order that is in the store is still
    there, unchanged, after any creation request; a creation request
    whose body names the identifier of a stored order is answered 400 and
    leaves the order store as it was. *)
Theorem creation_never_overwrites
  (oid : string) (u : JwtUser) (req : Request) (w : World) (id : string) (o : Order) :
  Orders w !! id = Some o ->
  Orders (post_order oid u req w).2 !! id = Some o
  ∧ (body req !! "_id" = Some id ->
     ∃ res w', post_order oid u req w = (Ok res, w')
               ∧ status res = 400
               ∧ Orders w' = Orders w).
Proof.
  intros Hstored. split; [by apply post_order_keeps_stored|].
  intros Hbody. run_handler. rewrite Hbody.
  destruct (bool_decide (is_Some (Users w !! jwt_id u))); world;
    [|by eexists _, _].
  rewrite Hstored. destruct (validate _); by eexists _, _.
Qed.

Lemma gate_responded_payload (verify : string -> option JwtUser) (req : Request)
  (w w' : World) (res : Response) :
  authenticateToken verify req w = (Ok (Responded res), w') ->
  res = sendStatus 401 ∨ res = json 403 (Message "Unauthorized access.").
Proof.
  run_gate. destruct (token (headers_authorization req)) as [tok|];
    [|intros [= <- <-]; by left].
  world. destruct (verify tok) as [user|]; [|intros [= <- <-]; by right].
  world. destruct (Users w !! jwt_id user) as [userFound|];
    [|intros [= <- <-]; by right].
  world. by destruct (truthy (User_role userFound)).
Qed.

(** Behind the gate the creation handler always finds its principal in
    the identity store: the route never gives the answer of the branch
    for a principal without record, because the gate has just looked the
    same record up. *)
Theorem route_post_finds_principal
  (verify : string -> option JwtUser) (oid : string) (req : Request)
  (w w' : World) (res : Response) :
  route verify (post_order oid) req w = (Ok res, w') ->
  payload res ≠ Message "No user associated with order.".
Proof.
  unfold route, bind, ret.
  destruct (authenticateToken verify req w) as [[[r|u]|e] w1] eqn:Hgate;
    [| |by intros [=]].
  - intros [= <- <-].
    by destruct (gate_responded_payload verify req w w1 r Hgate) as [->| ->].
  - destruct (gate_next_sound verify req w w1 u Hgate)
      as (tok & user & userFound & _ & _ & _ & Hu & _ & _ & ->).
    run_handler. rewrite Hu.
    rewrite bool_decide_eq_true_2 by eauto. world.
    destruct (validate _); [|by intros [= <- <-]].
    destruct (Orders w !! _); by intros [= <- <-].
Qed.

(** ** The listing routes *)

(** The listing of the caller's orders, for a caller whose id is an
    identifier of the store (as it is behind the gate, which found the
    identity under it): the answer is 200 with exactly the stored orders
    whose owner is the caller, none of another identity and none of the
    caller's left out; one query is made and nothing is written. *)
Theorem listing_all_is_own (u : JwtUser) (w : World) :
  casts (jwt_id u) = true ->
  ∃ m, get_orders_all u w
       = (Ok (mkListResponse 200 (Docs m)), emit (OrderFind (jwt_id u)) w)
       ∧ ∀ id o, m !! id = Some o
                 <-> Orders w !! id = Some o ∧ Order_user o = Some (jwt_id u).
Proof.
  intros Hc.
  unfold get_orders_all, get_orders_all_try, Order_find, try_catch, bind, ret.
  rewrite Hc. eexists. split; [reflexivity|].
  intros id o. rewrite map_lookup_filter_Some. done.
Qed.

(** The listing of the orders of a given identity is for Admins only.  A
    principal with any other role is answered 403 and the world,
    the log of calls included, is as it was: the order store was not
    queried, also when the principal asks for its own id.  An Admin is
    answered after one query: 200 with exactly the stored orders owned by
    that identity when the id is well-formed, 400 when it is not. *)
Theorem listing_of_user_is_admin_only (u : JwtUser) (userID : string) (w : World) :
  (jwt_role u ≠ Some "Admin" ->
   get_orders_user u userID w
   = (Ok (mkListResponse 403 (ListMessage "Unauthorized Access.")), w))
  ∧ (jwt_role u = Some "Admin" ->
     if casts userID
     then ∃ m, get_orders_user u userID w
               = (Ok (mkListResponse 200 (Docs m)), emit (OrderFind userID) w)
               ∧ ∀ id o, m !! id = Some o
                         <-> Orders w !! id = Some o ∧ Order_user o = Some userID
     else get_orders_user u userID w
          = (Ok (mkListResponse 400 (ListMessage "Bad Request.")),
             emit (OrderFind userID) w)).
Proof.
  unfold get_orders_user, get_orders_user_try, Order_find, try_catch, bind, ret.
  split; intros Hrole.
  - by rewrite (proj2 (role_is_not_true u "Admin") Hrole).
  - rewrite (proj2 (role_is_not_false u "Admin") Hrole).
    destruct (casts userID); [|done].
    eexists. split; [reflexivity|].
    intros id o. rewrite map_lookup_filter_Some. done.
Qed.

End Orders.

(** ** Closed examples *)

Lemma absent_header_401_witness :
  headers_authorization (mkRequest None Demo.r1 ∅) = None
  ∧ route Demo.verify (get_order Demo.casts) (mkRequest None Demo.r1 ∅) Demo.world
    = (Ok (sendStatus 401), Demo.world).
Proof.
  split; [reflexivity|].
  apply (absent_header_401 Demo.verify (get_order Demo.casts) (mkRequest None Demo.r1 ∅) Demo.world).
  reflexivity.
Defined.

(** C2, as stated, fails on an empty header: the request below carries
    [Authorization:] with the empty string as its value, and the gate
    answers 403 after handing the empty credential to the verifier. *)
Lemma empty_header_403 :
  headers_authorization (mkRequest (Some "") Demo.r1 ∅) = Some ""
  ∧ authenticateToken Demo.verify (mkRequest (Some "") Demo.r1 ∅) Demo.world
    = (Ok (Responded (json 403 (Message "Unauthorized access."))),
       emit (JwtVerify "") Demo.world)
  ∧ status (json 403 (Message "Unauthorized access.")) ≠ 401.
Proof. split; [reflexivity|]. split; [reflexivity|]. by cbn. Qed.

Lemma rejected_credential_403_witness :
  token (headers_authorization (Demo.bearer "this.is.not.a.valid.jwt.token" Demo.r1 ∅))
  = Some "this.is.not.a.valid.jwt.token"
  ∧ Demo.verify "this.is.not.a.valid.jwt.token" = None
  ∧ route Demo.verify (get_order Demo.casts)
      (Demo.bearer "this.is.not.a.valid.jwt.token" Demo.r1 ∅) Demo.world
    = (Ok (json 403 (Message "Unauthorized access.")),
       emit (JwtVerify "this.is.not.a.valid.jwt.token") Demo.world).
Proof.
  split; [reflexivity|]. split; [reflexivity|].
  apply (rejected_credential_403 Demo.verify (get_order Demo.casts)
           (Demo.bearer "this.is.not.a.valid.jwt.token" Demo.r1 ∅) Demo.world
           "this.is.not.a.valid.jwt.token"); reflexivity.
Defined.


Lemma missing_role_integrity_fault_witness :
  token (headers_authorization (Demo.bearer "tok-norole" Demo.r2 ∅)) = Some "tok-norole"
  ∧ Demo.verify "tok-norole" = Some (mkJwtUser Demo.norole None)
  ∧ Users Demo.world !! Demo.norole
    = Some (mkUser Demo.norole None "norole@test.com" "$2b$08$h4")
  ∧ route Demo.verify (get_order Demo.casts) (Demo.bearer "tok-norole" Demo.r2 ∅) Demo.world
    = (Throw AssertionError,
       emit (UserFindOne Demo.norole) (emit (JwtVerify "tok-norole") Demo.world)).
Proof.
  split; [reflexivity|]. split; [reflexivity|]. split; [reflexivity|].
  apply (missing_role_integrity_fault Demo.verify (get_order Demo.casts)
           (Demo.bearer "tok-norole" Demo.r2 ∅) Demo.world
           "tok-norole" (mkJwtUser Demo.norole None)
           (mkUser Demo.norole None "norole@test.com" "$2b$08$h4"));
    [reflexivity|reflexivity|reflexivity|by left].
Defined.

Lemma owner_or_admin_rule_witness :
  params_orderID (Demo.bearer "tok-u1" Demo.r1 {["_id" := Demo.r1]}) = Demo.r1
  ∧ body (Demo.bearer "tok-u1" Demo.r1 {["_id" := Demo.r1]}) !! "_id" = Some Demo.r1
  ∧ Demo.casts Demo.r1 = true
  ∧ Orders Demo.world !! Demo.r1 = Some (mkOrder Demo.r1 (Some Demo.u2) "Box1" None)
  ∧ put_order Demo.casts (mkJwtUser Demo.u1 (Some "User"))
      (Demo.bearer "tok-u1" Demo.r1 {["_id" := Demo.r1]}) Demo.world
    = (Ok (json 403 (Message "Unauthorized Access.")),
       emit (OrderFindOne (Some Demo.r1)) Demo.world).
Proof.
  split; [reflexivity|]. split; [reflexivity|]. split; [reflexivity|].
  split; [reflexivity|].
  exact (proj1 (proj2
    (owner_or_admin_rule Demo.casts (mkJwtUser Demo.u1 (Some "User"))
       (Demo.bearer "tok-u1" Demo.r1 {["_id" := Demo.r1]})
       (Demo.bearer "tok-u1" Demo.r1 {["_id" := Demo.r1]})
       Demo.world Demo.r1 (mkOrder Demo.r1 (Some Demo.u2) "Box1" None)
       eq_refl eq_refl eq_refl eq_refl))).
Defined.

(** C1, as stated, fails on a stored order that has no owner: a principal
    that is neither Admin nor the owner is answered 400, not 403, by the
    read handler, the update handler and the delete handler. *)
Lemma ownerless_order_400 :
  let u := mkJwtUser Demo.u1 (Some "User") in
  let rq := Demo.bearer "tok-u1" Demo.r1 {["_id" := Demo.r1]} in
  Orders Demo.ownerless !! Demo.r1 = Some (mkOrder Demo.r1 None "Box1" None)
  ∧ get_order Demo.casts u rq Demo.ownerless
    = (Ok (json 400 (Message "Bad Request.")),
       emit (OrderFindOne (Some Demo.r1)) Demo.ownerless)
  ∧ put_order Demo.casts u rq Demo.ownerless
    = (Ok (json 400 (Message "Bad Request.")),
       emit (OrderFindOne (Some Demo.r1)) Demo.ownerless)
  ∧ delete_order Demo.casts u rq Demo.ownerless
    = (Ok (json 400 (Message "Bad Request.")),
       emit (OrderFindOne (Some Demo.r1)) Demo.ownerless)
  ∧ status (json 400 (Message "Bad Request.")) ≠ 403.
Proof. vm_compute. repeat split. discriminate. Qed.

(** C6.  The code at the failing input.  Identity u1 creates an order, of
    which it becomes the owner; u1 then updates that order with a body
    that names u2 as [user]: the update is answered 201 and the stored
    order is owned by u2. *)
Theorem update_reassigns_owner :
  let create := Demo.bearer "tok-u1" "" {["type" := "Box2"]} in
  let update := Demo.bearer "tok-u1" ""
                  (<["_id" := Demo.r1]> {["user" := Demo.u2]}) in
  let created := route Demo.verify (post_order Demo.casts Demo.r1) create Demo.fresh in
  let updated := route Demo.verify (put_order Demo.casts) update created.2 in
  created.1 = Ok (json 201 (Doc (Some (mkOrder Demo.r1 (Some Demo.u1) "Box2" None))))
  ∧ Orders created.2 !! Demo.r1 = Some (mkOrder Demo.r1 (Some Demo.u1) "Box2" None)
  ∧ updated.1 = Ok (json 201 (Doc (Some (mkOrder Demo.r1 (Some Demo.u2) "Box2" None))))
  ∧ Orders updated.2 !! Demo.r1 = Some (mkOrder Demo.r1 (Some Demo.u2) "Box2" None).
Proof. vm_compute. repeat split. Qed.

Lemma created_order_owner_is_principal_witness :
  let u := mkJwtUser Demo.u1 (Some "User") in
  let req := Demo.bearer "tok-u1" "" {["user" := Demo.u2]} in
  let o1 := mkOrder Demo.r1 (Some Demo.u1) "Box1" None in
  let w' := set_Orders {[Demo.r1 := o1]}
              (emit (OrderSave o1) (emit (UserExists Demo.u1) Demo.fresh)) in
  post_order Demo.casts Demo.r1 u req Demo.fresh = (Ok (json 201 (Doc (Some o1))), w')
  ∧ ∃ o, payload (json 201 (Doc (Some o1))) = Doc (Some o)
         ∧ Orders Demo.fresh !! Order_id o = None
         ∧ Orders w' !! Order_id o = Some o
         ∧ Order_user o = Some (jwt_id u).
Proof.
  intros u req o1 w'.
  assert (Hrun : post_order Demo.casts Demo.r1 u req Demo.fresh
                 = (Ok (json 201 (Doc (Some o1))), w')).
  { vm_compute. reflexivity. }
  split; [exact Hrun|].
  apply (created_order_owner_is_principal Demo.casts Demo.r1 u req Demo.fresh w'
           (json 201 (Doc (Some o1))) Hrun).
  reflexivity.
Defined.

Lemma read_missing_order_404_witness :
  Orders Demo.world !! params_orderID (Demo.bearer "tok-admin1" Demo.r9 ∅) = None
  ∧ get_order Demo.casts (mkJwtUser Demo.admin1 (Some "Admin"))
      (Demo.bearer "tok-admin1" Demo.r9 ∅) Demo.world
    = (Ok (json 404 (Message "No order found.")),
       emit (OrderFindOne (Some Demo.r9)) Demo.world).
Proof.
  split; [reflexivity|].
  exact (proj1 (read_missing_order_404 Demo.casts
                  (mkJwtUser Demo.admin1 (Some "Admin"))
                  (Demo.bearer "tok-admin1" Demo.r9 ∅) Demo.world eq_refl)).
Defined.

(** C8, as stated, fails on an id that is not well-formed: abc resolves
    to no stored order, and reading it is answered 400, not 404. *)
Lemma read_malformed_id_400 :
  Orders Demo.world !! "abc" = None
  ∧ get_order Demo.casts (mkJwtUser Demo.admin1 (Some "Admin"))
      (Demo.bearer "tok-admin1" "abc" ∅) Demo.world
    = (Ok (json 400 (Message "Bad Request.")),
       emit (OrderFindOne (Some "abc")) Demo.world)
  ∧ status (json 400 (Message "Bad Request.")) ≠ 404.
Proof. vm_compute. repeat split. discriminate. Qed.



Lemma admin_delete_missing_order_200_witness :
  jwt_role (mkJwtUser Demo.admin1 (Some "Admin")) = Some "Admin"
  ∧ Demo.casts (params_orderID (Demo.bearer "tok-admin1" Demo.r9 ∅)) = true
  ∧ Orders Demo.world !! params_orderID (Demo.bearer "tok-admin1" Demo.r9 ∅) = None
  ∧ delete_order Demo.casts (mkJwtUser Demo.admin1 (Some "Admin"))
      (Demo.bearer "tok-admin1" Demo.r9 ∅) Demo.world
    = (Ok (json 200 (Doc None)),
       emit (OrderFindByIdAndDelete Demo.r9)
         (emit (OrderFindOne (Some Demo.r9)) Demo.world)).
Proof.
  split; [reflexivity|]. split; [reflexivity|]. split; [reflexivity|].
  exact (proj1 (admin_delete_missing_order_200 Demo.casts
                  (mkJwtUser Demo.admin1 (Some "Admin"))
                  (Demo.bearer "tok-admin1" Demo.r9 ∅) Demo.world
                  eq_refl eq_refl eq_refl)).
Defined.

(** C10, as stated, fails on an id that is not well-formed: abc does not
    exist in the store, and an Admin deleting it is answered 400, not 200
    with [null]. *)
Lemma admin_delete_malformed_id_400 :
  Orders Demo.world !! "abc" = None
  ∧ delete_order Demo.casts (mkJwtUser Demo.admin1 (Some "Admin"))
      (Demo.bearer "tok-admin1" "abc" ∅) Demo.world
    = (Ok (json 400 (Message "Bad Request.")),
       emit (OrderFindOne (Some "abc")) Demo.world)
  ∧ status (json 400 (Message "Bad Request.")) ≠ 200.
Proof. vm_compute. repeat split. discriminate. Qed.

Lemma gate_next_sound_witness :
  ∃ tok user userFound,
    token (headers_authorization (Demo.bearer "tok-u1" Demo.r2 ∅)) = Some tok
    ∧ Demo.verify tok = Some user
    ∧ Demo.u1 = jwt_id user
    ∧ Users Demo.world !! Demo.u1 = Some userFound
    ∧ Some "User" = User_role userFound
    ∧ truthy (Some "User") = true
    ∧ emit (UserFindOne Demo.u1) (emit (JwtVerify "tok-u1") Demo.world)
      = emit (UserFindOne (jwt_id user)) (emit (JwtVerify tok) Demo.world).
Proof.
  apply (gate_next_sound Demo.verify (Demo.bearer "tok-u1" Demo.r2 ∅) Demo.world
           (emit (UserFindOne Demo.u1) (emit (JwtVerify "tok-u1") Demo.world))
           (mkJwtUser Demo.u1 (Some "User"))).
  vm_compute. reflexivity.
Defined.

Lemma gate_answers_401_or_403_witness :
  (status (json 403 (Message "Unauthorized access.")) = 401
   ∧ token (headers_authorization (Demo.bearer "tok-ghost" Demo.r2 ∅)) = None
   ∧ emit (UserFindOne Demo.ghost) (emit (JwtVerify "tok-ghost") Demo.world)
     = Demo.world)
  ∨ (status (json 403 (Message "Unauthorized access.")) = 403
     ∧ ∃ tok, token (headers_authorization (Demo.bearer "tok-ghost" Demo.r2 ∅))
              = Some tok
              ∧ (Demo.verify tok = None
                 ∨ ∃ user, Demo.verify tok = Some user
                           ∧ Users Demo.world !! jwt_id user = None)).
Proof.
  apply (gate_answers_401_or_403 Demo.verify (Demo.bearer "tok-ghost" Demo.r2 ∅)
           Demo.world
           (emit (UserFindOne Demo.ghost) (emit (JwtVerify "tok-ghost") Demo.world))
           (json 403 (Message "Unauthorized access."))).
  vm_compute. reflexivity.
Defined.

Lemma principal_role_is_stored_role_witness :
  let forged := fun _ : string => Some (mkJwtUser Demo.u1 (Some "Admin")) in
  let req := Demo.bearer "any" Demo.r1 ∅ in
  forged "any" = Some (mkJwtUser Demo.u1 (Some "Admin"))
  ∧ route forged (get_order Demo.casts) req Demo.world
    = get_order Demo.casts (mkJwtUser Demo.u1 (Some "User")) req
        (emit (UserFindOne Demo.u1) (emit (JwtVerify "any") Demo.world)).
Proof.
  intros forged req. split; [reflexivity|].
  apply (principal_role_is_stored_role forged (get_order Demo.casts) req Demo.world "any"
           (mkJwtUser Demo.u1 (Some "Admin"))
           (mkUser Demo.u1 (Some "User") "u1@test.com" "$2b$08$h1"));
    reflexivity.
Defined.

Lemma token_ignores_scheme_witness :
  token (Some "Basic dXNlcjpwdw==") = Some "dXNlcjpwdw=="
  ∧ token (Some "Basic dXNlcjpwdw== trailing words") = Some "dXNlcjpwdw==".
Proof.
  apply (token_ignores_scheme "Basic" "dXNlcjpwdw==" "trailing words"); reflexivity.
Defined.

Lemma header_without_space_401_witness :
  route Demo.verify (get_order Demo.casts) (mkRequest (Some "tok-u1") Demo.r2 ∅) Demo.world
  = (Ok (sendStatus 401), Demo.world).
Proof.
  apply (header_without_space_401 Demo.verify (get_order Demo.casts)
           (mkRequest (Some "tok-u1") Demo.r2 ∅) Demo.world "tok-u1");
    [reflexivity|discriminate|reflexivity].
Defined.

Lemma store_ok_invariant_witness :
  store_ok Demo.fresh
  ∧ store_ok (serve_all Demo.casts Demo.verify
                [PostOrder Demo.r1 (Demo.bearer "tok-u1" "" {["type" := "Box2"]});
                 PutOrder (Demo.bearer "tok-admin1" ""
                             (<["_id" := Demo.r1]> {["user" := Demo.u2]}));
                 DeleteOrder (Demo.bearer "tok-u1" Demo.r1 ∅)]
                Demo.fresh).
Proof.
  assert (Hfresh : store_ok Demo.fresh) by apply map_Forall_empty.
  split; [exact Hfresh|].
  apply (store_ok_invariant Demo.casts Demo.verify _ Demo.fresh Hfresh).
Defined.

Lemma only_owner_or_admin_mutates_witness :
  let u := mkJwtUser Demo.u1 (Some "User") in
  let req := Demo.bearer "tok-u1" Demo.r2 ∅ in
  Orders (delete_order Demo.casts u req Demo.world).2 ≠ Orders Demo.world
  ∧ ∃ o, Orders Demo.world !! params_orderID req = Some o
         ∧ Order_user o = Some (jwt_id u).
Proof.
  intros u req.
  assert (Hchanged : Orders (delete_order Demo.casts u req Demo.world).2 ≠ Orders Demo.world).
  { intros Heq. apply (f_equal (fun m => m !! Demo.r2)) in Heq.
    vm_compute in Heq. discriminate. }
  split; [exact Hchanged|].
  apply (only_owner_or_admin_mutates Demo.casts u req Demo.world); [discriminate|exact Hchanged].
Defined.

Lemma create_then_read_witness :
  let u := mkJwtUser Demo.u1 (Some "User") in
  let req := Demo.bearer "tok-u1" "" {["type" := "Box2"]} in
  let rq := Demo.bearer "tok-u1" Demo.r1 ∅ in
  let o := mkOrder Demo.r1 (Some Demo.u1) "Box2" None in
  ∃ w'', get_order Demo.casts u rq (post_order Demo.casts Demo.r1 u req Demo.fresh).2
         = (Ok (json 200 (Doc (Some o))), w'').
Proof.
  intros u req rq o.
  refine (proj1 (create_then_read Demo.casts Demo.r1 u req Demo.fresh
                   (post_order Demo.casts Demo.r1 u req Demo.fresh).2
                   (json 201 (Doc (Some o))) u rq _ eq_refl eq_refl) _).
  - vm_compute. reflexivity.
  - by right.
Defined.

Lemma delete_then_again_witness :
  let u := mkJwtUser Demo.u1 (Some "User") in
  let rq := Demo.bearer "tok-u1" Demo.r2 ∅ in
  let w' := (delete_order Demo.casts u rq Demo.world).2 in
  Orders w' !! Demo.r2 = None
  ∧ (delete_order Demo.casts u rq w').1 = Ok (json 400 (Message "Bad Request.")).
Proof.
  intros u rq w'.
  destruct (delete_then_again Demo.casts u rq Demo.world w'
              (json 200 (Doc (Some (mkOrder Demo.r2 (Some Demo.u1) "Box2" (Some "mine")))))
              u) as (Hgone & _ & Hagain & _).
  - vm_compute. reflexivity.
  - reflexivity.
  - split; [exact Hgone|]. apply Hagain. discriminate.
Defined.

Lemma update_then_read_witness :
  let a := mkJwtUser Demo.admin1 (Some "Admin") in
  let up := Demo.bearer "tok-admin1" ""
              (<["_id" := Demo.r1]> {["description" := "checked"]}) in
  ∃ id o o',
    body up !! "_id" = Some id
    ∧ Orders Demo.world !! id = Some o
    ∧ Doc (Some (mkOrder Demo.r1 (Some Demo.u2) "Box1" (Some "checked"))) = Doc (Some o')
    ∧ Order_type o' = Order_type o.
Proof.
  intros a up.
  destruct (update_then_read Demo.casts a up Demo.world (put_order Demo.casts a up Demo.world).2
              (json 201 (Doc (Some (mkOrder Demo.r1 (Some Demo.u2) "Box1"
                                      (Some "checked"))))))
    as (id & o & o' & Hid & Ho & Hres & _ & _ & Hty & _).
  - vm_compute. reflexivity.
  - reflexivity.
  - exists id, o, o'. by repeat split.
Defined.

Lemma creation_never_overwrites_witness :
  let u := mkJwtUser Demo.u1 (Some "User") in
  let req := Demo.bearer "tok-u1" "" (<["_id" := Demo.r1]> {["type" := "Box2"]}) in
  Orders Demo.world !! Demo.r1 = Some (mkOrder Demo.r1 (Some Demo.u2) "Box1" None)
  ∧ Orders (post_order Demo.casts Demo.r9 u req Demo.world).2 !! Demo.r1
    = Some (mkOrder Demo.r1 (Some Demo.u2) "Box1" None).
Proof.
  intros u req. split; [reflexivity|].
  apply (creation_never_overwrites Demo.casts Demo.r9 u req Demo.world Demo.r1
           (mkOrder Demo.r1 (Some Demo.u2) "Box1" None)).
  reflexivity.
Defined.

Lemma route_post_finds_principal_witness :
  payload (json 201 (Doc (Some (mkOrder Demo.r1 (Some Demo.u1) "Box1" None))))
  ≠ Message "No user associated with order.".
Proof.
  apply (route_post_finds_principal Demo.casts Demo.verify Demo.r1
           (Demo.bearer "tok-u1" "" ∅) Demo.fresh
           (route Demo.verify (post_order Demo.casts Demo.r1) (Demo.bearer "tok-u1" "" ∅)
              Demo.fresh).2).
  vm_compute. reflexivity.
Defined.

Lemma put_order_keeps_owner_witness :
  let a := mkJwtUser Demo.admin1 (Some "Admin") in
  let up := Demo.bearer "tok-admin1" ""
              (<["_id" := Demo.r1]> {["type" := "Box2"]}) in
  body up !! "user" = None
  ∧ Orders Demo.world !! Demo.r1 = Some (mkOrder Demo.r1 (Some Demo.u2) "Box1" None)
  ∧ ∃ o', Orders (put_order Demo.casts a up Demo.world).2 !! Demo.r1 = Some o'
          ∧ Order_user o' = Some Demo.u2.
Proof.
  intros a up. split; [reflexivity|]. split; [reflexivity|].
  apply (put_order_keeps_owner Demo.casts a up Demo.world Demo.r1
           (mkOrder Demo.r1 (Some Demo.u2) "Box1" None)); reflexivity.
Defined.

Lemma listing_all_is_own_witness :
  let u := mkJwtUser Demo.u1 (Some "User") in
  Demo.casts (jwt_id u) = true
  ∧ ∃ m, get_orders_all Demo.casts u Demo.world
         = (Ok (mkListResponse 200 (Docs m)), emit (OrderFind Demo.u1) Demo.world)
         ∧ ∀ id o, m !! id = Some o
                   <-> Orders Demo.world !! id = Some o
                       ∧ Order_user o = Some Demo.u1.
Proof.
  intros u. split; [reflexivity|].
  apply (listing_all_is_own Demo.casts u Demo.world). reflexivity.
Defined.

